(** * pytest-zigzag: a shallow embedding of [pytest_zigzag/__init__.py]

    The plugin is glue between pytest's hook lifecycle and the ZigZag upload
    library.  The development below embeds the Python values, exceptions and
    host objects the hooks touch, then each function of the module under the
    name it has in the source, and finally states the properties of the
    specification over those definitions. *)

From Stdlib Require Import ZArith String Ascii List Bool Lia DecimalString.
From stdpp Require Import base option list gmap strings.

(** ** Python values and exceptions *)

Module Py.

(** The values that flow through the option registry, the environment and
    the upload library. *)
Inductive pyval : Type :=
| PNone
| PBool (b : bool)
| PInt (z : Z)
| PStr (s : string).

(** [bool(v)]: what [or], [and], [if], [any] and [all] test. *)
Definition truthy (v : pyval) : bool :=
  match v with
  | PNone => false
  | PBool b => b
  | PInt z => negb (z =? 0)%Z
  | PStr s => negb (String.eqb s EmptyString)
  end.

(** [a or b] *)
Definition py_or (a b : pyval) : pyval := if truthy a then a else b.

(** [any(l)] and [all(l)] *)
Definition py_any (l : list pyval) : bool := existsb truthy l.
Definition py_all (l : list pyval) : bool := forallb truthy l.

(** [str(v)], which is what ["{}".format(v)] inserts. *)
Definition py_str (v : pyval) : string :=
  match v with
  | PNone => "None"
  | PBool true => "True"
  | PBool false => "False"
  | PInt z => NilZero.string_of_int (Z.to_int z)
  | PStr s => s
  end.

(** The built-in exception classes the module names or can meet, with
    Python's hierarchy: [Exception] is below [BaseException], while
    [KeyboardInterrupt] and [SystemExit] derive from [BaseException]
    directly. *)
Inductive builtin_exn : Type :=
| BaseException | Exception | KeyboardInterrupt | SystemExit
| ValueError | LookupError | KeyError | AttributeError
| OSError | IOError | ValidationError.

#[global] Instance builtin_exn_eq_dec : EqDecision builtin_exn.
Proof. solve_decision. Defined.

(** The class itself followed by its ancestors. *)
Definition builtin_mro (b : builtin_exn) : list builtin_exn :=
  match b with
  | BaseException => [BaseException]
  | Exception => [Exception; BaseException]
  | KeyboardInterrupt => [KeyboardInterrupt; BaseException]
  | SystemExit => [SystemExit; BaseException]
  | ValueError => [ValueError; Exception; BaseException]
  | LookupError => [LookupError; Exception; BaseException]
  | KeyError => [KeyError; LookupError; Exception; BaseException]
  | AttributeError => [AttributeError; Exception; BaseException]
  | OSError => [OSError; Exception; BaseException]
  | IOError => [IOError; Exception; BaseException]
  | ValidationError => [ValidationError; Exception; BaseException]
  end.

(** A class is built in or derived (by a library) from another class. *)
Inductive exn_class : Type :=
| Builtin (b : builtin_exn)
| Derived (name : string) (base : exn_class).

Fixpoint issubclass (c : exn_class) (b : builtin_exn) : bool :=
  match c with
  | Builtin c0 => bool_decide (b ∈ builtin_mro c0)
  | Derived _ base => issubclass base b
  end.

(** What a [raise] carries.  [pytest.exit] and [pytest.skip] raise pytest's
    own control exceptions, which are not instances of [Exception]. *)
Inductive exn : Type :=
| PyExc (cls : exn_class) (msg : string)
| PytestExit (msg : string) (returncode : Z)
| PytestSkipped (msg : string).

(** [isinstance(e, b)], deciding which [except b] clause takes [e]. *)
Definition isinstance (e : exn) (b : builtin_exn) : bool :=
  match e with
  | PyExc c _ => issubclass c b
  | PytestExit _ _ | PytestSkipped _ => bool_decide (b = BaseException)
  end.

(** [str(e)] *)
Definition exn_str (e : exn) : string :=
  match e with
  | PyExc _ msg => msg
  | PytestExit msg _ => msg
  | PytestSkipped msg => msg
  end.

(** The result of evaluating a call: a value or a raised exception. *)
Inductive result (A : Type) : Type :=
| Ret (a : A)
| Raise (e : exn).
Arguments Ret {A} a.
Arguments Raise {A} e.

(** Sequencing: an exception raised by the first call skips the rest. *)
#[global] Instance result_ret : MRet result := λ A a, Ret a.
#[global] Instance result_bind : MBind result := λ A B k r,
  match r with
  | Ret a => k a
  | Raise e => Raise e
  end.

(** [try: r except b: h] with a handler that computes a value. *)
Definition try_except {A} (r : result A) (b : builtin_exn)
    (h : exn → result A) : result A :=
  match r with
  | Ret a => Ret a
  | Raise e => if isinstance e b then h e else Raise e
  end.

End Py.
Import Py.

(** ** Strings: Python's [in] on [str] *)

Module Str.

(** [needle in hay] *)
Fixpoint contains (needle hay : string) : bool :=
  String.prefix needle hay ||
  match hay with
  | EmptyString => false
  | String _ hay' => contains needle hay'
  end.

End Str.

(** ** The host framework: pytest's [Config] *)

Module Host.

(** The junitxml add-on's [LogXML] object, kept at [config._xml] when a
    report file was asked for. *)
Record LogXML : Type := { logfile : string }.

(** pytest's [Config], as far as the plugin reads it: the parsed command
    line (keyed by flag, ["--" + name]), the ini settings, the registered
    plugins and the optional [_xml] attribute. *)
Record Config : Type := {
  cli_flags : gmap string pyval;
  ini_settings : gmap string pyval;
  plugins : gset string;
  _xml : option LogXML
}.

(** [config.getoption(name)]: the value of a registered flag, [ValueError]
    for a name that was never registered. *)
Definition getoption (config : Config) (name : string) : result pyval :=
  match cli_flags config !! name with
  | Some v => Ret v
  | None => Raise (PyExc (Builtin ValueError) ("no option named " +:+ name))
  end.

(** [config.getini(name)]: the value of a registered ini key, [ValueError]
    for a key that was never registered. *)
Definition getini (config : Config) (name : string) : result pyval :=
  match ini_settings config !! name with
  | Some v => Ret v
  | None =>
      Raise (PyExc (Builtin ValueError)
               ("unknown configuration value: " +:+ name))
  end.

(** [config.pluginmanager.hasplugin(name)] *)
Definition hasplugin (config : Config) (name : string) : bool :=
  bool_decide (name ∈ plugins config).

End Host.
Import Host.

(** ** The session message buffer *)

Module SessionMessages.

(** Modelled from the spec: the class [SessionMessages] of
    [pytest_zigzag/session_messages.py], imported by the module but not
    among the sources.  The spec describes it as an ordered sequence of
    strings where [append(message)] adds a string to the end, [drain()]
    returns and clears the sequence, and iteration yields the accumulated
    messages in insertion order. *)
Record t : Type := mk { _messages : list string }.

(** Modelled from the spec: [SessionMessages()], an empty sequence. *)
Definition new : t := mk [].

(** Modelled from the spec: [buffer.append(message)] adds the string to the
    end of the sequence. *)
Definition append (message : string) (buffer : t) : t :=
  mk (_messages buffer ++ [message]).

(** Modelled from the spec: [buffer.drain()] returns and clears the
    sequence; the result is the drained messages and the buffer afterwards. *)
Definition drain (buffer : t) : list string * t :=
  (_messages buffer, mk []).

(** Modelled from the spec: [for message in buffer] yields the accumulated
    messages in insertion order. *)
Definition iter (buffer : t) : list string := _messages buffer.

(** A run of [append] calls, first message first. *)
Definition append_all (messages : list string) (buffer : t) : t :=
  foldl (λ b m, append m b) buffer messages.

End SessionMessages.

(** ** Functions: private *)

(** [_get_option_of_highest_precedence(config, option_name)] *)
Definition _get_option_of_highest_precedence
    (config : Config) (option_name : string) : result pyval :=
  cli_option ←
    try_except (getoption config ("--" +:+ option_name)) ValueError
      (λ _, Ret PNone);
  ini_option ←
    try_except (getini config option_name) ValueError (λ _, Ret PNone);
  let highest_precedence := py_or cli_option ini_option in
  Ret highest_precedence.

(** ** Regular expressions: the fragment of [re] the module uses *)

Module Re.

(** The items of a pattern such as [^[a-zA-Z0-9]+$]. *)
Inductive item : Type :=
| Caret                                   (* ^ *)
| Dollar                                  (* $ *)
| Set_ (ranges : list (ascii * ascii))    (* [a-z...] *)
| SetPlus (ranges : list (ascii * ascii)) (* [a-z...]+ *).

Definition in_range (c : ascii) (r : ascii * ascii) : bool :=
  (nat_of_ascii (fst r) <=? nat_of_ascii c) &&
  (nat_of_ascii c <=? nat_of_ascii (snd r)).

Definition in_set (ranges : list (ascii * ascii)) (c : ascii) : bool :=
  existsb (in_range c) ranges.

Definition newline : ascii := ascii_of_nat 10.

(** Without [re.MULTILINE], [$] matches at the end of the string and also
    just before a newline that is the last character of the string. *)
Definition at_dollar (rest : string) : bool :=
  match rest with
  | EmptyString => true
  | String c EmptyString => bool_decide (c = newline)
  | _ => false
  end.

(** The greedy loop of [+] after its first character: take one more
    character of the set if that leads to a match, else go on with the
    rest of the pattern. *)
Fixpoint plus_loop (ranges : list (ascii * ascii))
    (k : nat → string → bool) (pos : nat) (rest : string) : bool :=
  match rest with
  | String c rest' =>
      (in_set ranges c && plus_loop ranges k (S pos) rest') || k pos rest
  | EmptyString => k pos rest
  end.

(** Match the pattern at position [pos], where [rest] is what is left of
    the string from there. *)
Fixpoint match_here (p : list item) (pos : nat) (rest : string) : bool :=
  match p with
  | [] => true
  | Caret :: p' => (pos =? 0) && match_here p' pos rest
  | Dollar :: p' => at_dollar rest && match_here p' pos rest
  | Set_ ranges :: p' =>
      match rest with
      | String c rest' => in_set ranges c && match_here p' (S pos) rest'
      | EmptyString => false
      end
  | SetPlus ranges :: p' =>
      match rest with
      | String c rest' =>
          in_set ranges c && plus_loop ranges (match_here p') (S pos) rest'
      | EmptyString => false
      end
  end.

(** [re.match(pattern, string)]: a match anchored at the start; the match
    object is truthy, [None] is not. *)
Definition match_ (p : list item) (s : string) : bool := match_here p 0 s.

(** Every character of the string is in the set. *)
Fixpoint all_in_set (ranges : list (ascii * ascii)) (s : string) : bool :=
  match s with
  | EmptyString => true
  | String c s' => in_set ranges c && all_in_set ranges s'
  end.

End Re.

(** The pattern ["^[a-zA-Z0-9]+$"]. *)
Definition alnum : list (ascii * ascii) :=
  [("a"%char, "z"%char); ("A"%char, "Z"%char); ("0"%char, "9"%char)].

Definition token_pattern : list Re.item :=
  [Re.Caret; Re.SetPlus alnum; Re.Dollar].

(** [_validate_qtest_token(token)] *)
Definition _validate_qtest_token (token : string) : string :=
  if Re.match_ token_pattern token then token else EmptyString.

(** ** The config file loader *)

Module Json.

#[local] Set Warnings "-register-all".

(** What [json.loads] returns. *)
Inductive value : Type :=
| JNull
| JBool (b : bool)
| JNum (z : Z)
| JStr (s : string)
| JArr (items : list value)
| JObj (members : list (string * value)).

(** [d.get(key)] on the members of an object. *)
Fixpoint get (key : string) (members : list (string * value)) : option value :=
  match members with
  | [] => None
  | (k, v) :: rest => if String.eqb k key then Some v else get key rest
  end.

Definition is_string (v : value) : bool :=
  match v with JStr _ => true | _ => false end.

End Json.

(** The collaborators of the loader: the packaged resources, the file
    system, the JSON parser and the schema validator. *)
Record LoaderEnv : Type := {
  (* resource_stream(package, name).read().decode() *)
  resource_stream : string → string → result string;
  (* open(path, 'r') followed by f.read() *)
  open_read : string → result string;
  (* json.loads(text) *)
  loads : string → result Json.value;
  (* jsonschema.validate(instance, schema) *)
  validate : Json.value → Json.value → result unit
}.

(** Modelled from the spec: the packaged schema
    [data/schema/pytest-zigzag-config.schema.json] is not among the sources.
    The spec describes the documents it accepts: a JSON document with the
    top-level key [environment_variables], a mapping of environment-variable
    name to default string value. *)
Definition complies_with_schema (instance : Json.value) : bool :=
  match instance with
  | Json.JObj members =>
      match Json.get "environment_variables" members with
      | Some (Json.JObj vars) => forallb (λ kv, Json.is_string (snd kv)) vars
      | _ => false
      end
  | _ => false
  end.

(** Modelled from the spec: [validate(instance, schema)] for the packaged
    schema, raising [ValidationError] for a document the schema refuses. *)
Definition validate_packaged (instance : Json.value) : result unit :=
  if complies_with_schema instance then Ret tt
  else Raise (PyExc (Builtin ValidationError) "instance does not comply").

(** [pytest.exit(msg, returncode)] *)
Definition pytest_exit {A} (msg : string) (returncode : Z) : result A :=
  Raise (PytestExit msg returncode).

(** [_load_config_file(config_file)] *)
Definition _load_config_file (env : LoaderEnv) (config_file : string)
    : result Json.value :=
  schema ←
    (text ← resource_stream env "pytest_zigzag"
              "data/schema/pytest-zigzag-config.schema.json";
     loads env text);
  config_dict ←
    match (text ← open_read env config_file; loads env text) with
    | Ret d => Ret d
    | Raise e =>
        if isinstance e OSError || isinstance e IOError then
          pytest_exit ("Failed to load '" +:+ config_file +:+ "' config file!") 1
        else if isinstance e ValueError then
          pytest_exit ("The '" +:+ config_file +:+
                       "' config file is not valid JSON: " +:+ exn_str e) 1
        else Raise e
    end;
  _ ←
    match validate env config_dict schema with
    | Ret u => Ret u
    | Raise e =>
        if isinstance e ValidationError then
          pytest_exit ("Config file '" +:+ config_file +:+
                       "' does not comply with schema: " +:+ exn_str e) 1
        else Raise e
    end;
  Ret config_dict.

(** ** The upload library *)

Module ZigZagLib.

(** A [ZigZag] object: the arguments it was constructed with. *)
Record ZigZag : Type := {
  junit_input_file : string;
  qtest_api_token : string;
  qtest_project_id : pyval;
  extra : pyval
}.

(** The library as the plugin sees it: the constructor and the upload
    method either return or raise. *)
Record t : Type := {
  init : ZigZag → result unit;
  upload_test_results : ZigZag → result pyval
}.

(** The calls the plugin makes to the library. *)
Inductive call : Type :=
| Constructed (zz : ZigZag)
| Uploaded (zz : ZigZag).

End ZigZagLib.

(** ** Globals and the process-wide state the hooks act on *)

Definition TEST_STEPS_MARK : string := "test_case_with_steps".
Definition ZZ_WARN_MESSAGE : string :=
  "ZigZag will not attempt upload, '--zigzag' and '--qtest-project-id' must be specified together.".

Definition nl : string := String Re.newline EmptyString.

(** The module-level [SESSION_MESSAGES] together with what the hooks do to
    the outside: calls to the upload library, warnings given to pytest and
    lines written to the terminal reporter. *)
Record World : Type := {
  SESSION_MESSAGES : SessionMessages.t;
  zigzag_calls : list ZigZagLib.call;
  warnings : list (Z * string);
  terminal : list string
}.

(** Hook code: it reads and updates the world and returns or raises. *)
Definition Hook (A : Type) : Type := World → World * result A.

#[global] Instance hook_ret : MRet Hook := λ A a w, (w, Ret a).
#[global] Instance hook_bind : MBind Hook := λ A B k m w,
  match m w with
  | (w', Ret a) => k a w'
  | (w', Raise e) => (w', Raise e)
  end.

Module HookOps.

(** A call that touches no state. *)
Definition lift {A} (r : result A) : Hook A := λ w, (w, r).

(** [try: body except b as e: handler(e)]; what [body] did to the world
    before it raised stays done. *)
Definition try_ {A} (body : Hook A) (b : builtin_exn)
    (handler : exn → Hook A) : Hook A := λ w,
  match body w with
  | (w', Ret a) => (w', Ret a)
  | (w', Raise e) => if isinstance e b then handler e w' else (w', Raise e)
  end.

(** [for x in l: body(x)] *)
Fixpoint for_ {A} (l : list A) (body : A → Hook unit) : Hook unit :=
  match l with
  | [] => mret tt
  | x :: l' => _ ← body x; for_ l' body
  end.

Definition messages_append (message : string) : Hook unit := λ w,
  ({| SESSION_MESSAGES := SessionMessages.append message (SESSION_MESSAGES w);
      zigzag_calls := zigzag_calls w;
      warnings := warnings w;
      terminal := terminal w |}, Ret tt).

Definition messages_drain : Hook (list string) := λ w,
  let '(drained, buffer) := SessionMessages.drain (SESSION_MESSAGES w) in
  ({| SESSION_MESSAGES := buffer;
      zigzag_calls := zigzag_calls w;
      warnings := warnings w;
      terminal := terminal w |}, Ret drained).

Definition messages_iter : Hook (list string) := λ w,
  (w, Ret (SessionMessages.iter (SESSION_MESSAGES w))).

Definition record_call (c : ZigZagLib.call) : Hook unit := λ w,
  ({| SESSION_MESSAGES := SESSION_MESSAGES w;
      zigzag_calls := zigzag_calls w ++ [c];
      warnings := warnings w;
      terminal := terminal w |}, Ret tt).

(** [config.warn(code, message)] *)
Definition config_warn (code : Z) (message : string) : Hook unit := λ w,
  ({| SESSION_MESSAGES := SESSION_MESSAGES w;
      zigzag_calls := zigzag_calls w;
      warnings := warnings w ++ [(code, message)];
      terminal := terminal w |}, Ret tt).

(** [terminalreporter.write_line(line)] *)
Definition write_line (line : string) : Hook unit := λ w,
  ({| SESSION_MESSAGES := SESSION_MESSAGES w;
      zigzag_calls := zigzag_calls w;
      warnings := warnings w;
      terminal := terminal w ++ [line] |}, Ret tt).

(** [ZigZag(junit_file_path, token, qtest_project_id, None)] *)
Definition ZigZag (lib : ZigZagLib.t) (junit_file_path token : string)
    (qtest_project_id extra : pyval) : Hook ZigZagLib.ZigZag :=
  let zz := {| ZigZagLib.junit_input_file := junit_file_path;
               ZigZagLib.qtest_api_token := token;
               ZigZagLib.qtest_project_id := qtest_project_id;
               ZigZagLib.extra := extra |} in
  _ ← record_call (ZigZagLib.Constructed zz);
  _ ← lift (ZigZagLib.init lib zz);
  mret zz.

(** [zz.upload_test_results()] *)
Definition upload_test_results (lib : ZigZagLib.t) (zz : ZigZagLib.ZigZag)
    : Hook pyval :=
  _ ← record_call (ZigZagLib.Uploaded zz);
  lift (ZigZagLib.upload_test_results lib zz).

(** [getattr(config, '_xml', None).logfile] *)
Definition xml_logfile (config : Config) : result string :=
  match _xml config with
  | Some xml => Ret (logfile xml)
  | None =>
      Raise (PyExc (Builtin AttributeError)
               "'NoneType' object has no attribute 'logfile'")
  end.

(** [os.environ[key]] *)
Definition environ_getitem (environ : gmap string string) (key : string)
    : result string :=
  match environ !! key with
  | Some v => Ret v
  | None => Raise (PyExc (Builtin KeyError) ("'" +:+ key +:+ "'"))
  end.

End HookOps.
Import HookOps.

(** ** Hooks *)

(** The body of the [try] in [pytest_sessionfinish]. *)
Definition upload_step (lib : ZigZagLib.t) (environ : gmap string string)
    (config : Config) (qtest_project_id : pyval) : Hook unit :=
  junit_file_path ← lift (xml_logfile config);
  api_token ← lift (environ_getitem environ "QTEST_API_TOKEN");
  let token := _validate_qtest_token api_token in
  zz ← ZigZag lib junit_file_path token qtest_project_id PNone;
  job_id ← upload_test_results lib zz;
  _ ← messages_append "ZigZag upload was successful!";
  messages_append ("Queue Job ID: " +:+ py_str job_id).

(** The [except Exception as e] handler of [pytest_sessionfinish]. *)
Definition upload_failed (e : exn) : Hook unit :=
  _ ← messages_append "The ZigZag upload was not successful";
  messages_append ("Original error message:" +:+ nl +:+ nl +:+ exn_str e).

(** [pytest_sessionfinish(session)], with [config] for [session.config]. *)
Definition pytest_sessionfinish (lib : ZigZagLib.t)
    (environ : gmap string string) (config : Config) : Hook unit :=
  _ ← messages_drain;
  if hasplugin config "junitxml" then
    zz_option ← lift (_get_option_of_highest_precedence config "zigzag");
    qtest_project_id ←
      lift (_get_option_of_highest_precedence config "qtest-project-id");
    if truthy zz_option && truthy qtest_project_id then
      try_ (upload_step lib environ config qtest_project_id) Exception
        upload_failed
    else mret tt
  else mret tt.

(** [pytest_terminal_summary(terminalreporter)] *)
Definition pytest_terminal_summary : Hook unit :=
  messages ← messages_iter;
  for_ messages write_line.

(** [pytest_configure(config)] *)
Definition pytest_configure (config : Config) : Hook unit :=
  zz ← lift (_get_option_of_highest_precedence config "zigzag");
  qtpid ← lift (_get_option_of_highest_precedence config "qtest-project-id");
  if py_any [zz; qtpid] && negb (py_all [zz; qtpid]) then
    config_warn 101 ZZ_WARN_MESSAGE
  else mret tt.

(** ** Test items *)

(** The collector above an item; [_previousfailed] is set by
    [pytest_runtest_makereport] to the step that failed and is kept here by
    the name of that item, the only attribute read from it. *)
Record Parent : Type := { _previousfailed : option string }.

(** A pytest item, as far as the per-test hooks use it. *)
Record Item : Type := {
  name : string;
  keywords : gset string;
  parent : Parent;
  user_properties : list (string * pyval)
}.

(** [item.user_properties.append(tup)] *)
Definition user_properties_append (tup : string * pyval) (item : Item) : Item :=
  {| name := name item;
     keywords := keywords item;
     parent := parent item;
     user_properties := user_properties item ++ [tup] |}.

(** [item.user_properties[position] = tup] for a position within the list. *)
Definition user_properties_setitem (position : nat) (tup : string * pyval)
    (item : Item) : Item :=
  {| name := name item;
     keywords := keywords item;
     parent := parent item;
     user_properties := <[position := tup]> (user_properties item) |}.

(** [pytest.skip(msg)] *)
Definition pytest_skip {A} (msg : string) : result A :=
  Raise (PytestSkipped msg).

(** [pytest_runtest_setup(item)]; [now] is the formatted reading of the UTC
    clock.  The item comes back as the hook left it, also when it skips. *)
Definition pytest_runtest_setup (now : string) (item : Item)
    : Item * result unit :=
  let item := user_properties_append ("start_time", PStr now) item in
  let item := user_properties_append ("end_time", PStr now) item in
  (item,
   if bool_decide ("test_case_with_steps" ∈ keywords item)
      && negb (Str.contains "setup" (name item))
      && negb (Str.contains "teardown" (name item))
   then
     let previousfailed := _previousfailed (parent item) in
     match previousfailed with
     | Some previousfailed_name =>
         pytest_skip ("because previous test failed: " +:+ previousfailed_name)
     | None => Ret tt
     end
   else Ret tt).

(** [enumerate(l)], counting from [n]. *)
Fixpoint enumerate_from {A} (n : nat) (l : list A) : list (nat * A) :=
  match l with
  | [] => []
  | x :: l' => (n, x) :: enumerate_from (S n) l'
  end.

(** The loop of [pytest_runtest_teardown] that looks for the ['end_time']
    tuple: every hit overwrites [position]. *)
Definition end_time_position (props : list (string * pyval)) : option nat :=
  foldl (λ position '(n, tup),
           if String.eqb (fst tup) "end_time" then Some n else position)
        None (enumerate_from 0 props).

(** [pytest_runtest_teardown(item)]; [now] is the formatted reading of the
    UTC clock. *)
Definition pytest_runtest_teardown (now : string) (item : Item) : Item :=
  let now_tup := ("end_time", PStr now) in
  let position := end_time_position (user_properties item) in
  match position with
  | Some position => user_properties_setitem position now_tup item
  | None => user_properties_append now_tup item
  end.

(** ** Vocabulary of the properties *)

(** What the command line and the ini file hold for an option, if the name
    is registered there at all. *)
Definition cli_value (config : Config) (option_name : string) : option pyval :=
  cli_flags config !! ("--" +:+ option_name).
Definition ini_value (config : Config) (option_name : string) : option pyval :=
  ini_settings config !! option_name.

(** Configurations used to run the hooks on concrete inputs. *)
Module Samples.

(** [--zigzag --qtest-project-id=42 --junitxml=out.xml] over an ini file
    that sets another project id. *)
Definition both_set : Config :=
  {| cli_flags := {[ "--zigzag" := PBool true;
                     "--qtest-project-id" := PStr "42";
                     "--pytest-config" := PNone;
                     "--config_file" := PNone ]};
     ini_settings := {[ "zigzag" := PBool false;
                        "qtest-project-id" := PStr "7";
                        "pytest-config" := PStr EmptyString;
                        "config_file" := PStr "conf.json" ]};
     plugins := {[ "junitxml" ]};
     _xml := Some {| logfile := "out.xml" |} |}.

(** [--zigzag --junitxml=out.xml] and nothing about a project id. *)
Definition only_zigzag : Config :=
  {| cli_flags := {[ "--zigzag" := PBool true;
                     "--qtest-project-id" := PNone ]};
     ini_settings := {[ "zigzag" := PBool false;
                        "qtest-project-id" := PNone ]};
     plugins := {[ "junitxml" ]};
     _xml := Some {| logfile := "out.xml" |} |}.

(** The zigzag switch set in the ini file alone, with no flag registered. *)
Definition ini_only : Config :=
  {| cli_flags := ∅;
     ini_settings := {[ "zigzag" := PBool true ]};
     plugins := ∅;
     _xml := None |}.

(** The zigzag flag given on the command line, with no ini key registered. *)
Definition cli_only : Config :=
  {| cli_flags := {[ "--zigzag" := PBool true ]};
     ini_settings := ∅;
     plugins := ∅;
     _xml := None |}.

(** A process that has not run a hook yet, with a message left over in
    the buffer. *)
Definition stale_world : World :=
  {| SESSION_MESSAGES := SessionMessages.mk ["left over"];
     zigzag_calls := [];
     warnings := [];
     terminal := [] |}.

Definition token_environ : gmap string string :=
  {[ "QTEST_API_TOKEN" := "abc123" ]}.

(** An upload library whose upload returns the job id ["99"]. *)
Definition returns_99 : ZigZagLib.t :=
  {| ZigZagLib.init := λ _, Ret tt;
     ZigZagLib.upload_test_results := λ _, Ret (PStr "99") |}.

(** What Ctrl-C raises while the upload is under way. *)
Definition interrupt : exn := PyExc (Builtin KeyboardInterrupt) "interrupted".

(** What a failing upload raises in the end-to-end scenario. *)
Definition boom : exn := PyExc (Derived "RuntimeError" (Builtin Exception)) "boom".

(** What [sys.exit(1)] raises inside the upload library. *)
Definition system_exit : exn := PyExc (Builtin SystemExit) "1".

(** An upload library whose upload raises the given exception. *)
Definition raises (e : exn) : ZigZagLib.t :=
  {| ZigZagLib.init := λ _, Ret tt;
     ZigZagLib.upload_test_results := λ _, Raise e |}.

End Samples.

(** The loader ended the process with exit code 1 and a message that
    contains the path of the config file. *)
Definition exits_naming (config_file : string) (r : result Json.value) : Prop :=
  ∃ msg, r = Raise (PytestExit msg 1) ∧ Str.contains config_file msg = true.

(** The resource name of the packaged schema. *)
Definition schema_resource : string :=
  "data/schema/pytest-zigzag-config.schema.json".

Module LoaderSamples.

Definition good_document : Json.value :=
  Json.JObj [("environment_variables",
              Json.JObj [("BUILD_URL", Json.JStr "unknown")])].

(** A file system with an unreadable file, a file that is not JSON, a JSON
    file without the required key and a complying file; the parser is given
    by its results on the texts of these files. *)
Definition env : LoaderEnv :=
  {| resource_stream := λ _ _, Ret "the schema";
     open_read := λ path,
       if String.eqb path "bad.json" then Ret "{"
       else if String.eqb path "nokey.json" then Ret "{}"
       else if String.eqb path "good.json" then Ret "good"
       else Raise (PyExc (Builtin IOError) "No such file or directory");
     loads := λ text,
       if String.eqb text "the schema" then Ret (Json.JObj [])
       else if String.eqb text "{}" then Ret (Json.JObj [])
       else if String.eqb text "good" then Ret good_document
       else Raise (PyExc (Derived "JSONDecodeError" (Builtin ValueError))
                     "Expecting property name");
     validate := λ instance _, validate_packaged instance |}.

End LoaderSamples.

(** The option resolves to a value that is set (truthy), or to one that is
    not. *)
Definition resolves_set (config : Config) (option_name : string) : Prop :=
  ∃ v, _get_option_of_highest_precedence config option_name = Ret v ∧
       truthy v = true.
Definition resolves_unset (config : Config) (option_name : string) : Prop :=
  ∃ v, _get_option_of_highest_precedence config option_name = Ret v ∧
       truthy v = false.

(** The world right after [SESSION_MESSAGES.drain()]. *)
Definition drained (w : World) : World := (messages_drain w).1.

(** The [ZigZag] object the hook constructs. *)
Definition uploader (junit_file_path api_token : string)
    (qtest_project_id : pyval) : ZigZagLib.ZigZag :=
  {| ZigZagLib.junit_input_file := junit_file_path;
     ZigZagLib.qtest_api_token := _validate_qtest_token api_token;
     ZigZagLib.qtest_project_id := qtest_project_id;
     ZigZagLib.extra := PNone |}.

(** The exception [e] is raised inside the upload step: on reading the
    report path, on reading the credential, on constructing the uploader or
    by the upload call itself. *)
Inductive raised_in_upload (lib : ZigZagLib.t) (environ : gmap string string)
    (config : Config) (qtest_project_id : pyval) (e : exn) : Prop :=
| raised_by_report_path :
    xml_logfile config = Raise e →
    raised_in_upload lib environ config qtest_project_id e
| raised_by_credential (junit_file_path : string) :
    xml_logfile config = Ret junit_file_path →
    environ_getitem environ "QTEST_API_TOKEN" = Raise e →
    raised_in_upload lib environ config qtest_project_id e
| raised_by_constructor (junit_file_path api_token : string) :
    xml_logfile config = Ret junit_file_path →
    environ_getitem environ "QTEST_API_TOKEN" = Ret api_token →
    ZigZagLib.init lib (uploader junit_file_path api_token qtest_project_id)
      = Raise e →
    raised_in_upload lib environ config qtest_project_id e
| raised_by_upload (junit_file_path api_token : string) :
    xml_logfile config = Ret junit_file_path →
    environ_getitem environ "QTEST_API_TOKEN" = Ret api_token →
    ZigZagLib.init lib (uploader junit_file_path api_token qtest_project_id)
      = Ret tt →
    ZigZagLib.upload_test_results lib
      (uploader junit_file_path api_token qtest_project_id) = Raise e →
    raised_in_upload lib environ config qtest_project_id e.

(** The two messages of a failed upload. *)
Definition failure_messages (e : exn) : list string :=
  [ "The ZigZag upload was not successful";
    "Original error message:" +:+ nl +:+ nl +:+ exn_str e ].

(** The two messages of a successful upload. *)
Definition success_messages (job_id : pyval) : list string :=
  [ "ZigZag upload was successful!"; "Queue Job ID: " +:+ py_str job_id ].

Module ItemSamples.

(** The second step of a stepped test case whose first step failed, after
    its setup at 10:00:00. *)
Definition second_step : Item :=
  {| name := "test_step_two";
     keywords := {[ "test_case_with_steps"; "test_step_two" ]};
     parent := {| _previousfailed := Some "test_step_one" |};
     user_properties :=
       [ ("test_step", PStr "true");
         ("start_time", PStr "2019-01-01T10:00:00Z");
         ("end_time", PStr "2019-01-01T10:00:00Z");
         ("jira", PStr "ASC-123") ] |}.

(** A fixture-like member of the same group. *)
Definition group_teardown : Item :=
  {| name := "test_teardown_servers";
     keywords := {[ "test_case_with_steps"; "test_teardown_servers" ]};
     parent := {| _previousfailed := Some "test_step_one" |};
     user_properties := [ ("test_step", PStr "true") ] |}.

End ItemSamples.

(** ** Marks and collection *)

(** A mark applied to a test: [marker.name] and [marker.args]. *)
Record Mark : Type := { marker_name : string; marker_args : list pyval }.

(** A collected item with the marks that apply to it, closest first, which
    is the order [item.iter_markers()] yields them in. *)
Record Collected : Type := { node : Item; markers : list Mark }.

(** [item.iter_markers(name)] *)
Definition iter_markers (c : Collected) (name : string) : list Mark :=
  List.filter (λ m, String.eqb (marker_name m) name) (markers c).

(** [item.get_closest_marker(name)] *)
Definition get_closest_marker (c : Collected) (name : string) : option Mark :=
  head (iter_markers c name).

(** The body of the outer loop of [_capture_marks], for one item. *)
Definition _capture_marks_item (mark_names : list string) (c : Collected)
    : Collected :=
  let item :=
    user_properties_append
      ("test_step",
       PStr (match get_closest_marker c TEST_STEPS_MARK with
             | Some _ => "true"
             | None => "false"
             end))
      (node c) in
  let item :=
    foldl (λ item mark_name,
             foldl (λ item marker,
                      foldl (λ item arg,
                               user_properties_append (marker_name marker, arg)
                                 item)
                            item (marker_args marker))
                   item (iter_markers c mark_name))
          item mark_names in
  {| node := item; markers := markers c |}.

(** [_capture_marks(items, mark_names)]: the items after the loop. *)
Definition _capture_marks (items : list Collected) (mark_names : list string)
    : list Collected :=
  map (_capture_marks_item mark_names) items.

(** [pytest_collection_modifyitems(items)] *)
Definition pytest_collection_modifyitems (items : list Collected)
    : list Collected :=
  _capture_marks items ["test_id"; "jira"].

(** The tuples a list of marks contributes: one per argument, under the
    name of the mark. *)
Definition mark_tuples (marks : list Mark) : list (string * pyval) :=
  flat_map (λ marker, map (λ arg, (marker_name marker, arg)) (marker_args marker))
           marks.

(** ** The report hook *)

(** pytest's [CallInfo]: [call.excinfo] is [None] when the phase passed. *)
Record CallInfo : Type := { excinfo : option exn }.

(** [pytest_runtest_makereport(item, call)]: the state of [item.parent]
    after the hook. *)
Definition pytest_runtest_makereport (item : Item) (call : CallInfo) : Parent :=
  if bool_decide ("test_case_with_steps" ∈ keywords item) then
    match excinfo call with
    | Some _ => {| _previousfailed := Some (name item) |}
    | None => parent item
    end
  else parent item.

(** The item as a hook sees it once its parent object is in state [p]. *)
Definition with_parent (p : Parent) (item : Item) : Item :=
  {| name := name item;
     keywords := keywords item;
     parent := p;
     user_properties := user_properties item |}.

(** How many tuples of the list carry the key. *)
Definition count_key (key : string) (props : list (string * pyval)) : nat :=
  length (List.filter (λ tup, String.eqb (fst tup) key) props).

(** The item with its property list replaced. *)
Definition with_user_properties (props : list (string * pyval)) (item : Item)
    : Item :=
  {| name := name item;
     keywords := keywords item;
     parent := parent item;
     user_properties := props |}.

(** The value of the ['test_step'] tuple for an item. *)
Definition test_step_flag (c : Collected) : pyval :=
  PStr (match get_closest_marker c TEST_STEPS_MARK with
        | Some _ => "true"
        | None => "false"
        end).

Module StepSamples.

Definition first : Item :=
  {| name := "test_create_server";
     keywords := {[ "test_case_with_steps"; "test_create_server" ]};
     parent := {| _previousfailed := None |};
     user_properties := [] |}.

Definition second : Item :=
  {| name := "test_resize_server";
     keywords := {[ "test_case_with_steps"; "test_resize_server" ]};
     parent := {| _previousfailed := None |};
     user_properties := [] |}.

Definition third : Item :=
  {| name := "test_delete_server";
     keywords := {[ "test_case_with_steps"; "test_delete_server" ]};
     parent := {| _previousfailed := None |};
     user_properties := [] |}.

Definition assertion_error : exn :=
  PyExc (Derived "AssertionError" (Builtin Exception)) "assert 500 == 200".

End StepSamples.

(** ** Python's container protocol on parsed JSON *)

Module PyJson.
Import Json.

Definition TypeError (msg : string) : exn :=
  PyExc (Derived "TypeError" (Builtin Exception)) msg.
Definition IndexError (msg : string) : exn :=
  PyExc (Derived "IndexError" (Builtin LookupError)) msg.

(** The integer a value stands for as an index: an [int], or a [bool],
    which is an [int] in Python. *)
Definition as_index (key : value) : option Z :=
  match key with
  | JNum z => Some z
  | JBool b => Some (if b then 1 else 0)%Z
  | _ => None
  end.

(** [seq[i]] on a sequence of the given elements: negative indices count
    from the end, anything out of range is an [IndexError]. *)
Definition sequence_getitem (elements : list value) (i : Z) : result value :=
  let n := Z.of_nat (length elements) in
  let j := (if i <? 0 then i + n else i)%Z in
  if ((0 <=? j) && (j <? n))%Z then
    match elements !! Z.to_nat j with
    | Some v => Ret v
    | None => Raise (IndexError "index out of range")
    end
  else Raise (IndexError "index out of range").

(** The characters of a [str], each a [str] of length one. *)
Fixpoint characters (s : string) : list value :=
  match s with
  | EmptyString => []
  | String c s' => JStr (String c EmptyString) :: characters s'
  end.

(** [container[key]] *)
Definition getitem (container key : value) : result value :=
  match container with
  | JObj members =>
      match key with
      | JStr k =>
          match get k members with
          | Some v => Ret v
          | None => Raise (PyExc (Builtin KeyError) ("'" +:+ k +:+ "'"))
          end
      | JArr _ | JObj _ => Raise (TypeError "unhashable type")
      | _ => Raise (PyExc (Builtin KeyError) "key")
      end
  | JArr items =>
      match as_index key with
      | Some i => sequence_getitem items i
      | None => Raise (TypeError "list indices must be integers or slices")
      end
  | JStr s =>
      match as_index key with
      | Some i => sequence_getitem (characters s) i
      | None => Raise (TypeError "string indices must be integers")
      end
  | _ => Raise (TypeError "object is not subscriptable")
  end.

(** What [for x in container] goes through: the keys of a [dict], the items
    of a [list], the characters of a [str]. *)
Definition iterate (container : value) : result (list value) :=
  match container with
  | JObj members => Ret (map (λ kv, JStr (fst kv)) members)
  | JArr items => Ret items
  | JStr s => Ret (characters s)
  | _ => Raise (TypeError "object is not iterable")
  end.

(** [os.getenv(key, default)] *)
Definition os_getenv (environ : gmap string string) (key default : value)
    : result value :=
  match key with
  | JStr k =>
      match environ !! k with
      | Some v => Ret (JStr v)
      | None => Ret default
      end
  | _ => Raise (TypeError "str expected")
  end.

End PyJson.

(** ** Capturing the CI environment *)

(** What [_capture_ci_environment] works with: the loader's collaborators,
    [open(path).read()] for a path that is not a [str], and [os.environ]. *)
Record CiEnv : Type := {
  loader_env : LoaderEnv;
  open_object : pyval → result string;
  os_environ : gmap string string
}.

Definition DEFAULT_CONFIG_FILE : string :=
  "./pytest_zigzag/data/configs/default-config.json".

(** The lines of [_capture_ci_environment] that determine the config file:
    [config_file], overridden by [pytest-config], else the bundled file. *)
Definition highest_precedence_config (config : Config) : result pyval :=
  let highest_precedence := PNone in
  config_file ← _get_option_of_highest_precedence config "config_file";
  highest_precedence ←
    (if truthy config_file
     then _get_option_of_highest_precedence config "config_file"
     else Ret highest_precedence);
  pytest_config ← _get_option_of_highest_precedence config "pytest-config";
  highest_precedence ←
    (if truthy pytest_config
     then _get_option_of_highest_precedence config "pytest-config"
     else Ret highest_precedence);
  Ret (if negb (truthy highest_precedence) then PStr DEFAULT_CONFIG_FILE
       else highest_precedence).

(** [_load_config_file(v)] for the value the options resolved to: a [str]
    is a path; any other value is handed to [open] as it is and shows in
    the messages as [str(v)]. *)
Definition load_config_value (env : CiEnv) (v : pyval) : result Json.value :=
  match v with
  | PStr path => _load_config_file (loader_env env) path
  | _ =>
      _load_config_file
        {| resource_stream := resource_stream (loader_env env);
           open_read := λ _, open_object env v;
           loads := loads (loader_env env);
           validate := validate (loader_env env) |}
        (py_str v)
  end.

(** The loop over [config_dict['environment_variables']]: the calls to
    [junit_xml_config.add_global_property] made so far and how the loop
    ends. *)
Fixpoint record_environment (environ : gmap string string)
    (config_dict : Json.value) (env_vars : list Json.value)
    (recorded : list (Json.value * Json.value))
    : list (Json.value * Json.value) * result unit :=
  match env_vars with
  | [] => (recorded, Ret tt)
  | env_var :: rest =>
      match (variables ←
               PyJson.getitem config_dict (Json.JStr "environment_variables");
             default ← PyJson.getitem variables env_var;
             PyJson.os_getenv environ env_var default) with
      | Ret value =>
          record_environment environ config_dict rest
            (recorded ++ [(env_var, value)])
      | Raise e => (recorded, Raise e)
      end
  end.

(** [_capture_ci_environment(session)], with [config] for [session.config]:
    the global properties added to the report and the outcome. *)
Definition _capture_ci_environment (env : CiEnv) (config : Config)
    : list (Json.value * Json.value) * result unit :=
  if hasplugin config "junitxml" then
    let junit_xml_config := _xml config in
    match junit_xml_config with
    | Some _ =>
        match (highest_precedence ← highest_precedence_config config;
               load_config_value env highest_precedence) with
        | Ret config_dict =>
            match (variables ←
                     PyJson.getitem config_dict
                       (Json.JStr "environment_variables");
                   PyJson.iterate variables) with
            | Ret env_vars =>
                record_environment (os_environ env) config_dict env_vars []
            | Raise e => ([], Raise e)
            end
        | Raise e => ([], Raise e)
        end
    | None => ([], Ret tt)
    end
  else ([], Ret tt).

(** [pytest_runtestloop(session)] *)
Definition pytest_runtestloop (env : CiEnv) (config : Config)
    : list (Json.value * Json.value) * result unit :=
  if hasplugin config "junitxml" then
    let junit_xml_config := _xml config in
    match junit_xml_config with
    | Some _ => _capture_ci_environment env config
    | None => ([], Ret tt)
    end
  else ([], Ret tt).

(** The global property a variable of the config file yields: the value in
    the process environment, else the default of the file. *)
Definition global_property (environ : gmap string string)
    (kv : string * Json.value) : Json.value * Json.value :=
  (Json.JStr (fst kv),
   match environ !! fst kv with
   | Some v => Json.JStr v
   | None => snd kv
   end).

(** ** Registering the options *)

(** pytest's option parser, as far as [pytest_addoption] uses it: the ini
    keys and the command-line flags registered so far, with the type or
    action and the default they were registered with. *)
Record IniSetting : Type := {
  ini_name : string;
  ini_type : option string;
  ini_default : pyval
}.

Record CliOption : Type := {
  opt_flag : string;
  opt_action : option string;
  opt_default : pyval
}.

Record Parser : Type := {
  inis : list IniSetting;
  opts : list CliOption
}.

(** [parser.addini(name, help, type, default)] *)
Definition addini (name : string) (type : option string) (default : pyval)
    (parser : Parser) : Parser :=
  {| inis := inis parser ++ [{| ini_name := name; ini_type := type;
                                ini_default := default |}];
     opts := opts parser |}.

(** [parser.addoption(flag, help, action, default)] *)
Definition addoption (flag : string) (action : option string)
    (default : pyval) (parser : Parser) : Parser :=
  {| inis := inis parser;
     opts := opts parser ++ [{| opt_flag := flag; opt_action := action;
                                opt_default := default |}] |}.

(** [pytest_addoption(parser)] *)
Definition pytest_addoption (parser : Parser) : Parser :=
  let config_option := "pytest-config" in
  let parser := addini config_option None PNone parser in
  let parser := addoption ("--" +:+ config_option) None PNone parser in
  let config_option := "config_file" in
  let parser := addini config_option None PNone parser in
  let parser := addoption ("--" +:+ config_option) None PNone parser in
  let parser := addini "zigzag" (Some "bool") (PBool false) parser in
  let parser :=
    addoption "--zigzag" (Some "store_true") (PBool false) parser in
  let parser := addini "qtest-project-id" None PNone parser in
  let parser := addoption "--qtest-project-id" None PNone parser in
  parser.

(** The option names the hooks hand to the resolver. *)
Definition resolved_option_names : list string :=
  ["zigzag"; "qtest-project-id"; "config_file"; "pytest-config"].

Module CiSamples.

Definition document : Json.value :=
  Json.JObj [("environment_variables",
              Json.JObj [("BUILD_URL", Json.JStr "unknown");
                         ("BUILD_NUMBER", Json.JStr "0")])].

(** The collaborators of the loader with the file [conf.json] holding
    [document], and a process environment that sets [BUILD_NUMBER]. *)
Definition env : CiEnv :=
  {| loader_env :=
       {| resource_stream := λ _ _, Ret "the schema";
          open_read := λ path,
            if String.eqb path "conf.json" then Ret "the document"
            else Raise (PyExc (Builtin IOError) "No such file or directory");
          loads := λ text,
            if String.eqb text "the schema" then Ret (Json.JObj [])
            else if String.eqb text "the document" then Ret document
            else Raise (PyExc (Derived "JSONDecodeError" (Builtin ValueError))
                          "Expecting value");
          validate := λ instance _, validate_packaged instance |};
     open_object := λ _, Raise (PyExc (Builtin OSError) "Bad file descriptor");
     os_environ := {[ "BUILD_NUMBER" := "117" ]} |}.

(** [--junitxml=out.xml --config_file=missing.json] *)
Definition missing_file : Config :=
  {| cli_flags := {[ "--config_file" := PStr "missing.json";
                     "--pytest-config" := PNone ]};
     ini_settings := {[ "config_file" := PStr EmptyString;
                        "pytest-config" := PStr EmptyString ]};
     plugins := {[ "junitxml" ]};
     _xml := Some {| logfile := "out.xml" |} |}.

End CiSamples.

Module MarkSamples.

(** A step of a stepped test case with a test id, two tickets and a mark
    nobody asked for. *)
Definition step : Collected :=
  {| node := {| name := "test_step_one";
                keywords := {[ "test_case_with_steps"; "test_step_one" ]};
                parent := {| _previousfailed := None |};
                user_properties := [("owner", PStr "qa")] |};
     markers := [ {| marker_name := "jira";
                     marker_args := [PStr "ASC-1"; PStr "ASC-2"] |};
                  {| marker_name := "slow"; marker_args := [PInt 3] |};
                  {| marker_name := "test_id"; marker_args := [PStr "abc"] |};
                  {| marker_name := "test_case_with_steps";
                     marker_args := [] |} ] |}.

End MarkSamples.

Module LoaderEdgeSamples.

(** Reading the config file is interrupted from the keyboard. *)
Definition interrupted : LoaderEnv :=
  {| resource_stream := λ _ _, Ret "the schema";
     open_read := λ _, Raise Samples.interrupt;
     loads := λ _, Ret (Json.JObj []);
     validate := λ _ _, Ret tt |}.

Definition no_such_file : exn :=
  PyExc (Builtin IOError) "No such file or directory".

(** An installation without the packaged schema. *)
Definition without_schema : LoaderEnv :=
  {| resource_stream := λ _ _, Raise no_such_file;
     open_read := λ _, Ret "{}";
     loads := λ _, Ret (Json.JObj []);
     validate := λ _ _, Ret tt |}.

End LoaderEdgeSamples.

(** ** The upload step in closed form *)

(** The calls the upload step makes to the library and how it ends before
    anything is buffered: with the job id or with the exception raised. *)
Definition upload_trace (lib : ZigZagLib.t) (environ : gmap string string)
    (config : Config) (qtest_project_id : pyval)
    : list ZigZagLib.call * result pyval :=
  match xml_logfile config with
  | Raise e => ([], Raise e)
  | Ret junit_file_path =>
      match environ_getitem environ "QTEST_API_TOKEN" with
      | Raise e => ([], Raise e)
      | Ret api_token =>
          let zz := uploader junit_file_path api_token qtest_project_id in
          match ZigZagLib.init lib zz with
          | Raise e => ([ZigZagLib.Constructed zz], Raise e)
          | Ret _ =>
              ([ZigZagLib.Constructed zz; ZigZagLib.Uploaded zz],
               ZigZagLib.upload_test_results lib zz)
          end
      end
  end.

(** The world after the hook made the calls and left the messages. *)
Definition after_upload (w : World) (calls : list ZigZagLib.call)
    (messages : list string) : World :=
  {| SESSION_MESSAGES := SessionMessages.mk messages;
     zigzag_calls := zigzag_calls w ++ calls;
     warnings := warnings w;
     terminal := terminal w |}.

(** The session-finish hook in closed form: what it buffers and how it
    ends, given the trace of the upload step. *)
Definition finish_outcome (trace : list ZigZagLib.call * result pyval)
    : list string * result unit :=
  match trace.2 with
  | Ret job_id => (success_messages job_id, Ret tt)
  | Raise e =>
      if isinstance e Exception then (failure_messages e, Ret tt)
      else ([], Raise e)
  end.

Module FinishSamples.

(** A credential with a character outside the pattern. *)
Definition bad_token_environ : gmap string string :=
  {[ "QTEST_API_TOKEN" := "abc-123" ]}.

(** [--zigzag --qtest-project-id=42] without [--junitxml]. *)
Definition no_report : Config :=
  {| cli_flags := {[ "--zigzag" := PBool true;
                     "--qtest-project-id" := PStr "42" ]};
     ini_settings := {[ "zigzag" := PBool false;
                        "qtest-project-id" := PStr EmptyString ]};
     plugins := {[ "junitxml" ]};
     _xml := None |}.

End FinishSamples.

(** * Properties *)

(** ** Facts about strings *)

Module StrFacts.
Import Str.

Lemma append_nil_l (s : string) : EmptyString +:+ s = s.
Proof. reflexivity. Qed.

Lemma append_cons (a : ascii) (s t : string) :
  String a s +:+ t = String a (s +:+ t).
Proof. reflexivity. Qed.

Lemma prefix_app (p s : string) : String.prefix p (p +:+ s) = true.
Proof.
  induction p as [|a p IH].
  - by destruct s.
  - rewrite append_cons. cbn [String.prefix].
    destruct (Ascii.ascii_dec a a); [exact IH | done].
Qed.

Lemma prefix_split (p s : string) :
  String.prefix p s = true → ∃ t, s = p +:+ t.
Proof.
  revert s. induction p as [|a p IH]; intros s H.
  - by exists s.
  - destruct s as [|b s]; simpl in H; [done|].
    destruct (Ascii.ascii_dec a b) as [->|]; [|done].
    destruct (IH _ H) as [t ->]. by exists t.
Qed.

Lemma contains_prefix (needle hay : string) :
  String.prefix needle hay = true → contains needle hay = true.
Proof. intros H. destruct hay; cbn [contains]; by rewrite H. Qed.

Lemma contains_intro (pre needle post : string) :
  contains needle (pre +:+ needle +:+ post) = true.
Proof.
  induction pre as [|a pre IH].
  - rewrite append_nil_l. apply contains_prefix, prefix_app.
  - rewrite append_cons. cbn [contains]. rewrite IH. apply orb_true_r.
Qed.

Lemma contains_elim (needle hay : string) :
  contains needle hay = true → ∃ pre post, hay = pre +:+ needle +:+ post.
Proof.
  induction hay as [|a hay IH]; cbn [contains]; intros H.
  - rewrite orb_false_r in H. destruct (prefix_split _ _ H) as [t ->].
    by exists EmptyString, t.
  - apply orb_true_iff in H as [H|H].
    + destruct (prefix_split _ _ H) as [t ->]. by exists EmptyString, t.
    + destruct (IH H) as (pre & post & ->). by exists (String a pre), post.
Qed.

Lemma contains_spec (needle hay : string) :
  contains needle hay = true ↔ ∃ pre post, hay = pre +:+ needle +:+ post.
Proof.
  split; [apply contains_elim|].
  intros (pre & post & ->). apply contains_intro.
Qed.

Lemma contains_refl (s : string) : contains s s = true.
Proof.
  pose proof (contains_intro EmptyString s EmptyString) as H.
  rewrite append_nil_l in H.
  replace (s +:+ EmptyString) with s in H; [done|].
  clear H. induction s as [|a s IH]; [done|].
  rewrite append_cons. by rewrite <- IH.
Qed.

Lemma contains_skip (pre needle hay : string) :
  contains needle hay = true → contains needle (pre +:+ hay) = true.
Proof.
  intros H. induction pre as [|a pre IH]; [done|].
  rewrite append_cons. cbn [contains]. rewrite IH. apply orb_true_r.
Qed.

End StrFacts.

(** ** Facts about the session message buffer *)

Module SessionMessagesFacts.
Import SessionMessages.

Lemma append_all_messages (messages : list string) (buffer : t) :
  _messages (append_all messages buffer) = _messages buffer ++ messages.
Proof.
  revert buffer. induction messages as [|m ms IH]; intros buffer.
  - by rewrite app_nil_r.
  - unfold append_all in *. cbn [foldl]. rewrite IH. cbn.
    by rewrite <- app_assoc.
Qed.

End SessionMessagesFacts.

(** ** The configuration resolver *)

Section Resolver.

Variable config : Config.
Variable option_name : string.

(** The resolver in closed form: a lookup that fails counts as [None]. *)
Lemma resolver_unfold :
  _get_option_of_highest_precedence config option_name =
  Ret (py_or (default PNone (cli_value config option_name))
             (default PNone (ini_value config option_name))).
Proof.
  unfold _get_option_of_highest_precedence, getoption, getini,
    cli_value, ini_value.
  destruct (cli_flags config !! _), (ini_settings config !! _); reflexivity.
Qed.

Lemma py_or_falsy_l (a b : pyval) : truthy a = false → py_or a b = b.
Proof. unfold py_or. by intros ->. Qed.

Lemma py_or_truthy_l (a b : pyval) : truthy a = true → py_or a b = a.
Proof. unfold py_or. by intros ->. Qed.

Lemma cli_unusable_default :
  (∀ c, cli_value config option_name = Some c → truthy c = false) →
  truthy (default PNone (cli_value config option_name)) = false.
Proof.
  destruct (cli_value config option_name) as [c|]; cbn;
    [by intros H; apply H | done].
Qed.

End Resolver.

(** C1.  Precedence of the resolver: a command-line value that is present
    and non-empty (truthy) is returned, whatever the ini file holds;
    otherwise the ini value is returned when the key is registered;
    otherwise the result is absent ([None]); and whenever no truthy value
    exists on either side the result is falsy.  In particular, with both a
    command-line value and an ini value present, the command-line value
    wins. *)
Theorem resolver_precedence (config : Config) (option_name : string) :
  (∀ c, cli_value config option_name = Some c → truthy c = true →
        _get_option_of_highest_precedence config option_name = Ret c) ∧
  (∀ i, (∀ c, cli_value config option_name = Some c → truthy c = false) →
        ini_value config option_name = Some i →
        _get_option_of_highest_precedence config option_name = Ret i) ∧
  ((∀ c, cli_value config option_name = Some c → truthy c = false) →
   ini_value config option_name = None →
   _get_option_of_highest_precedence config option_name = Ret PNone) ∧
  ((∀ c, cli_value config option_name = Some c → truthy c = false) →
   (∀ i, ini_value config option_name = Some i → truthy i = false) →
   ∃ v, _get_option_of_highest_precedence config option_name = Ret v ∧
        truthy v = false) ∧
  (∀ c i, cli_value config option_name = Some c → truthy c = true →
          ini_value config option_name = Some i →
          _get_option_of_highest_precedence config option_name = Ret c).
Proof.
  rewrite resolver_unfold. repeat split.
  - intros c -> Hc. cbn. by rewrite py_or_truthy_l.
  - intros i Hcli ->. cbn.
    by rewrite py_or_falsy_l by by apply cli_unusable_default.
  - intros Hcli ->. cbn.
    by rewrite py_or_falsy_l by by apply cli_unusable_default.
  - intros Hcli Hini.
    rewrite py_or_falsy_l by by apply cli_unusable_default.
    eexists; split; [reflexivity|].
    destruct (ini_value config option_name) as [i|]; cbn; [by apply Hini|done].
  - intros c i -> Hc _. cbn. by rewrite py_or_truthy_l.
Qed.

Lemma resolver_precedence_witness :
  _get_option_of_highest_precedence Samples.both_set "qtest-project-id"
    = Ret (PStr "42") ∧
  _get_option_of_highest_precedence Samples.both_set "config_file"
    = Ret (PStr "conf.json") ∧
  _get_option_of_highest_precedence Samples.both_set "nowhere" = Ret PNone ∧
  (∃ v, _get_option_of_highest_precedence Samples.both_set "pytest-config"
          = Ret v ∧ truthy v = false) ∧
  _get_option_of_highest_precedence Samples.both_set "zigzag"
    = Ret (PBool true).
Proof.
  pose proof (resolver_precedence Samples.both_set "qtest-project-id")
    as (H1 & _).
  pose proof (resolver_precedence Samples.both_set "config_file")
    as (_ & H2 & _).
  pose proof (resolver_precedence Samples.both_set "nowhere")
    as (_ & _ & H3 & _).
  pose proof (resolver_precedence Samples.both_set "pytest-config")
    as (_ & _ & _ & H4 & _).
  pose proof (resolver_precedence Samples.both_set "zigzag")
    as (_ & _ & _ & _ & H5).
  split; [apply H1; reflexivity|].
  split; [apply H2; [intros c Hc; vm_compute in Hc; by simplify_eq | reflexivity]|].
  split; [apply H3; [intros c Hc; vm_compute in Hc; by simplify_eq | reflexivity]|].
  split; [apply H4; intros c Hc; vm_compute in Hc; by simplify_eq|].
  apply (H5 _ (PBool false)); reflexivity.
Defined.

(** C6.  An option name registered neither as a flag nor as an ini key
    resolves to [None] without raising, although both lookups raise
    [ValueError]; a failed flag lookup alone leaves the ini value, a failed
    ini lookup alone leaves the flag's value when truthy and [None]
    otherwise; and the resolver never raises. *)
Theorem resolver_unregistered (config : Config) (option_name : string) :
  (cli_value config option_name = None →
   ini_value config option_name = None →
   (∃ e, getoption config ("--" +:+ option_name) = Raise e ∧
         isinstance e ValueError = true) ∧
   (∃ e, getini config option_name = Raise e ∧
         isinstance e ValueError = true) ∧
   _get_option_of_highest_precedence config option_name = Ret PNone) ∧
  (cli_value config option_name = None →
   _get_option_of_highest_precedence config option_name
     = Ret (default PNone (ini_value config option_name))) ∧
  (∀ c, ini_value config option_name = None →
        cli_value config option_name = Some c →
        _get_option_of_highest_precedence config option_name
          = Ret (if truthy c then c else PNone)) ∧
  (∃ v, _get_option_of_highest_precedence config option_name = Ret v).
Proof.
  rewrite resolver_unfold. unfold getoption, getini, cli_value, ini_value.
  split; [|split; [|split]].
  - intros -> ->. split; [|split].
    + eexists; split; reflexivity.
    + eexists; split; reflexivity.
    + reflexivity.
  - by intros ->.
  - intros c -> ->. cbn. unfold py_or. by destruct (truthy c).
  - by eexists.
Qed.

Lemma resolver_unregistered_witness :
  _get_option_of_highest_precedence Samples.both_set "no-such-option"
    = Ret PNone ∧
  _get_option_of_highest_precedence Samples.ini_only "zigzag"
    = Ret (PBool true) ∧
  _get_option_of_highest_precedence Samples.cli_only "zigzag"
    = Ret (PBool true).
Proof.
  split; [|split].
  - apply (resolver_unregistered Samples.both_set "no-such-option");
      reflexivity.
  - exact (proj1 (proj2 (resolver_unregistered Samples.ini_only "zigzag"))
             eq_refl).
  - exact (proj1 (proj2 (proj2 (resolver_unregistered Samples.cli_only
                                  "zigzag")))
             (PBool true) eq_refl eq_refl).
Defined.

(** ** The session message buffer *)

(** C8.  Whatever was appended, in whatever buffer: the first drain returns
    the buffered messages followed by the appended ones, in insertion
    order, and leaves the buffer empty; a drain right after it returns
    nothing; and draining an empty buffer changes nothing. *)
Theorem drain_returns_then_empty
    (buffer : SessionMessages.t) (messages : list string) :
  SessionMessages.drain (SessionMessages.append_all messages buffer)
    = (SessionMessages.iter buffer ++ messages, SessionMessages.new) ∧
  SessionMessages.drain
    (SessionMessages.drain (SessionMessages.append_all messages buffer)).2
    = ([], SessionMessages.new) ∧
  SessionMessages.drain
    (SessionMessages.append_all messages SessionMessages.new)
    = (messages, SessionMessages.new) ∧
  SessionMessages.drain SessionMessages.new = ([], SessionMessages.new).
Proof.
  unfold SessionMessages.drain, SessionMessages.iter.
  rewrite !SessionMessagesFacts.append_all_messages. done.
Qed.

(** ** The token pattern *)

Module ReFacts.
Import Re.

(** The strings on which the loop of [[...]+] followed by [$] succeeds:
    characters of the set, then the end or one last newline. *)
Lemma plus_loop_dollar (ranges : list (ascii * ascii)) (pos : nat)
    (rest : string) :
  plus_loop ranges (match_here [Dollar]) pos rest = true ↔
  ∃ body, all_in_set ranges body = true ∧
          (rest = body ∨ rest = body +:+ String newline EmptyString).
Proof.
  revert pos. induction rest as [|c rest IH]; intros pos;
    cbn [plus_loop match_here].
  - split; [|done]. intros _. exists EmptyString. split; [done | by left].
  - rewrite orb_true_iff, andb_true_iff, IH, andb_true_r. split.
    + intros [[Hc (body & Hall & Hrest)] | Hend].
      * exists (String c body). cbn [all_in_set]. rewrite Hc, Hall.
        split; [done|]. destruct Hrest as [-> | ->]; [by left | by right].
      * exists EmptyString. split; [done|]. right.
        cbn [at_dollar] in Hend. destruct rest; [|done].
        apply bool_decide_eq_true in Hend. by subst.
    + intros (body & Hall & Hrest). destruct body as [|b body].
      * right. destruct Hrest as [Hrest | Hrest]; [done|].
        rewrite StrFacts.append_nil_l in Hrest. by simplify_eq.
      * left. cbn [all_in_set] in Hall. apply andb_true_iff in Hall as [Hb Hall].
        rewrite StrFacts.append_cons in Hrest.
        destruct Hrest as [Hrest | Hrest]; simplify_eq;
          (split; [done|]); exists body; (split; [done|]); first [by left | by right].
Qed.

End ReFacts.

(** The tokens [^[a-zA-Z0-9]+$] matches: a non-empty run of letters and
    digits, optionally followed by one newline. *)
Lemma token_pattern_matches (token : string) :
  Re.match_ token_pattern token = true ↔
  ∃ body, body ≠ EmptyString ∧ Re.all_in_set alnum body = true ∧
          (token = body ∨ token = body +:+ nl).
Proof.
  unfold Re.match_, token_pattern. cbn [Re.match_here Nat.eqb andb].
  destruct token as [|c rest].
  - split; [done|]. intros (body & Hne & _ & [H | H]); [by subst|].
    destruct body; [done|]. by rewrite StrFacts.append_cons in H.
  - rewrite andb_true_iff, ReFacts.plus_loop_dollar. split.
    + intros (Hc & body & Hall & Hrest). exists (String c body).
      split; [done|]. cbn [Re.all_in_set]. rewrite Hc, Hall. split; [done|].
      rewrite StrFacts.append_cons.
      destruct Hrest as [-> | ->]; [by left | by right].
    + intros (body & Hne & Hall & Hrest). destruct body as [|b body]; [done|].
      cbn [Re.all_in_set] in Hall. apply andb_true_iff in Hall as [Hb Hall].
      rewrite StrFacts.append_cons in Hrest.
      destruct Hrest as [Hrest | Hrest]; simplify_eq;
        (split; [done|]); exists body; (split; [done|]); first [by left | by right].
Qed.

(** A string of letters and digits alone comes back unchanged. *)
Lemma validate_token_alnum (token : string) :
  Re.all_in_set alnum token = true → _validate_qtest_token token = token.
Proof.
  intros Hall. unfold _validate_qtest_token.
  destruct (Re.match_ token_pattern token) eqn:Hm; [done|].
  destruct token as [|c rest]; [done|].
  assert (Re.match_ token_pattern (String c rest) = true) as Hm'; [|congruence].
  apply token_pattern_matches. exists (String c rest). by auto.
Qed.

Lemma all_in_set_app (ranges : list (ascii * ascii)) (s t : string) :
  Re.all_in_set ranges (s +:+ t)
  = Re.all_in_set ranges s && Re.all_in_set ranges t.
Proof.
  induction s as [|c s IH]; [done|].
  rewrite StrFacts.append_cons. cbn [Re.all_in_set].
  by rewrite IH, andb_assoc.
Qed.

(** C3, where the code departs from it.  A non-empty run of letters and
    digits followed by one newline contains a character that is not
    alphanumeric, yet the helper returns it unchanged instead of the empty
    string: [$] also matches just before a final newline. *)
Theorem validate_token_trailing_newline (body : string) :
  body ≠ EmptyString → Re.all_in_set alnum body = true →
  Re.all_in_set alnum (body +:+ nl) = false ∧
  _validate_qtest_token (body +:+ nl) = body +:+ nl ∧
  _validate_qtest_token (body +:+ nl) ≠ EmptyString.
Proof.
  intros Hne Hall.
  assert (_validate_qtest_token (body +:+ nl) = body +:+ nl) as Hv.
  { unfold _validate_qtest_token.
    replace (Re.match_ token_pattern (body +:+ nl)) with true; [done|].
    symmetry. apply token_pattern_matches. exists body. by auto. }
  split; [|split; [done|]].
  - by rewrite all_in_set_app, Hall.
  - rewrite Hv. destruct body; [done|]. by rewrite StrFacts.append_cons.
Qed.

Lemma validate_token_trailing_newline_witness :
  Re.all_in_set alnum ("abc123" +:+ nl) = false ∧
  _validate_qtest_token ("abc123" +:+ nl) = "abc123" +:+ nl ∧
  _validate_qtest_token ("abc123" +:+ nl) ≠ EmptyString.
Proof.
  apply (validate_token_trailing_newline "abc123"); [done | reflexivity].
Defined.

(** The two examples of the specification, on which the code agrees. *)
Example validate_token_examples :
  _validate_qtest_token "abc-123" = EmptyString ∧
  _validate_qtest_token "abc123" = "abc123".
Proof. split; reflexivity. Qed.

(** Apart from the trailing newline the helper does what the pattern is
    meant to: a string with a character outside the set that is not such a
    run followed by one newline is turned into the empty string. *)
Lemma validate_token_rejects (token : string) :
  Re.all_in_set alnum token = false →
  (∀ body, Re.all_in_set alnum body = true → token ≠ body +:+ nl) →
  _validate_qtest_token token = EmptyString.
Proof.
  intros Hbad Hnl. unfold _validate_qtest_token.
  destruct (Re.match_ token_pattern token) eqn:Hm; [|done].
  apply token_pattern_matches in Hm as (body & _ & Hall & [-> | ->]).
  - congruence.
  - by destruct (Hnl body Hall).
Qed.

(** ** The config file loader *)

Section Loader.

Variable env : LoaderEnv.
Variable config_file : string.
Variable schema : Json.value.

(** The packaged schema is there and parses. *)
Hypothesis schema_loaded :
  ∃ text, resource_stream env "pytest_zigzag" schema_resource = Ret text ∧
          loads env text = Ret schema.

Lemma names_load_failure :
  Str.contains config_file
    ("Failed to load '" +:+ config_file +:+ "' config file!") = true.
Proof. apply StrFacts.contains_intro. Qed.

Lemma names_invalid_json (cause : string) :
  Str.contains config_file
    ("The '" +:+ config_file +:+ "' config file is not valid JSON: "
       +:+ cause) = true.
Proof. apply StrFacts.contains_intro. Qed.

Lemma names_schema_failure (cause : string) :
  Str.contains config_file
    ("Config file '" +:+ config_file +:+ "' does not comply with schema: "
       +:+ cause) = true.
Proof. apply StrFacts.contains_intro. Qed.

(** The loader once the schema is in hand. *)
Lemma load_config_file_unfold :
  _load_config_file env config_file =
  match (text ← open_read env config_file; loads env text) with
  | Ret d =>
      match validate env d schema with
      | Ret _ => Ret d
      | Raise e =>
          if isinstance e ValidationError then
            pytest_exit ("Config file '" +:+ config_file +:+
                         "' does not comply with schema: " +:+ exn_str e) 1
          else Raise e
      end
  | Raise e =>
      if isinstance e OSError || isinstance e IOError then
        pytest_exit ("Failed to load '" +:+ config_file +:+ "' config file!") 1
      else if isinstance e ValueError then
        pytest_exit ("The '" +:+ config_file +:+
                     "' config file is not valid JSON: " +:+ exn_str e) 1
      else Raise e
  end.
Proof.
  destruct schema_loaded as (text & Hres & Hloads).
  unfold _load_config_file. fold schema_resource. rewrite Hres. cbn.
  rewrite Hloads. cbn.
  destruct (open_read env config_file) as [t|e]; cbn.
  - destruct (loads env t) as [d|e]; cbn.
    + destruct (validate env d schema) as [[]|e]; cbn; [done|].
      by destruct (isinstance e ValidationError).
    + by destruct (isinstance e OSError || isinstance e IOError),
         (isinstance e ValueError).
  - by destruct (isinstance e OSError || isinstance e IOError),
       (isinstance e ValueError).
Qed.

Lemma load_failure_exits (e : exn) :
  (text ← open_read env config_file; loads env text) = Raise e →
  isinstance e OSError || isinstance e IOError || isinstance e ValueError
    = true →
  exits_naming config_file (_load_config_file env config_file).
Proof.
  intros Hbody He. rewrite load_config_file_unfold, Hbody.
  destruct (isinstance e OSError || isinstance e IOError).
  - eexists. split; [reflexivity | apply names_load_failure].
  - cbn in He. rewrite He.
    eexists. split; [reflexivity | apply names_invalid_json].
Qed.

End Loader.

(** C2.  Provided the packaged schema loads, for every path: an I/O failure
    on opening or reading the file, a JSON syntax failure and a schema
    validation failure each end the process with exit code 1 and a message
    that contains the path; under the schema as the specification describes
    it, a JSON object without the key [environment_variables] is such a
    validation failure; and when all three steps succeed the loader returns
    the parsed document. *)
Theorem load_config_file_outcomes (env : LoaderEnv) (config_file : string)
    (schema : Json.value)
    (schema_loaded :
       ∃ text, resource_stream env "pytest_zigzag" schema_resource = Ret text ∧
               loads env text = Ret schema) :
  (∀ e, open_read env config_file = Raise e →
        isinstance e OSError || isinstance e IOError = true →
        exits_naming config_file (_load_config_file env config_file)) ∧
  (∀ text e, open_read env config_file = Ret text →
             loads env text = Raise e →
             isinstance e ValueError = true →
             exits_naming config_file (_load_config_file env config_file)) ∧
  (∀ text d e, open_read env config_file = Ret text →
               loads env text = Ret d →
               validate env d schema = Raise e →
               isinstance e ValidationError = true →
               exits_naming config_file (_load_config_file env config_file)) ∧
  (∀ text members, open_read env config_file = Ret text →
                   loads env text = Ret (Json.JObj members) →
                   validate env (Json.JObj members) schema
                     = validate_packaged (Json.JObj members) →
                   Json.get "environment_variables" members = None →
                   exits_naming config_file
                     (_load_config_file env config_file)) ∧
  (∀ text d, open_read env config_file = Ret text →
             loads env text = Ret d →
             validate env d schema = Ret tt →
             _load_config_file env config_file = Ret d).
Proof.
  split; [|split; [|split; [|split]]].
  - intros e Hopen He. apply (load_failure_exits _ _ _ schema_loaded e).
    + by rewrite Hopen.
    + by rewrite He.
  - intros text e Hopen Hloads He.
    apply (load_failure_exits _ _ _ schema_loaded e).
    + rewrite Hopen. exact Hloads.
    + rewrite He. apply orb_true_r.
  - intros text d e Hopen Hloads Hval He.
    rewrite (load_config_file_unfold _ _ _ schema_loaded), Hopen. cbn.
    rewrite Hloads, Hval, He.
    eexists. split; [reflexivity | apply names_schema_failure].
  - intros text members Hopen Hloads Hval Hget.
    rewrite (load_config_file_unfold _ _ _ schema_loaded), Hopen. cbn.
    rewrite Hloads, Hval. unfold validate_packaged, complies_with_schema.
    rewrite Hget. cbn.
    eexists. split; [reflexivity | apply names_schema_failure].
  - intros text d Hopen Hloads Hval.
    rewrite (load_config_file_unfold _ _ _ schema_loaded), Hopen. cbn.
    by rewrite Hloads, Hval.
Qed.

Lemma load_config_file_outcomes_witness :
  exits_naming "missing.json"
    (_load_config_file LoaderSamples.env "missing.json") ∧
  exits_naming "bad.json" (_load_config_file LoaderSamples.env "bad.json") ∧
  exits_naming "nokey.json"
    (_load_config_file LoaderSamples.env "nokey.json") ∧
  _load_config_file LoaderSamples.env "good.json"
    = Ret LoaderSamples.good_document.
Proof.
  assert (∃ text,
            resource_stream LoaderSamples.env "pytest_zigzag" schema_resource
              = Ret text ∧
            loads LoaderSamples.env text = Ret (Json.JObj [])) as Hschema
    by (exists "the schema"; split; reflexivity).
  split; [|split; [|split]].
  - eapply (proj1 (load_config_file_outcomes LoaderSamples.env "missing.json"
                     (Json.JObj []) Hschema)); reflexivity.
  - eapply (proj1 (proj2 (load_config_file_outcomes LoaderSamples.env
                            "bad.json" (Json.JObj []) Hschema)));
      reflexivity.
  - eapply (proj1 (proj2 (proj2 (proj2
              (load_config_file_outcomes LoaderSamples.env "nokey.json"
                 (Json.JObj []) Hschema)))) "{}" []); reflexivity.
  - eapply (proj2 (proj2 (proj2 (proj2
              (load_config_file_outcomes LoaderSamples.env "good.json"
                 (Json.JObj []) Hschema)))) "good"); reflexivity.
Defined.

(** ** The session-finish hook *)

Section SessionFinish.

Variable lib : ZigZagLib.t.
Variable environ : gmap string string.
Variable config : Config.

(** The hook when the add-on is absent or an option is not set: the buffer
    is drained and nothing else happens. *)
Lemma sessionfinish_idle (w : World) :
  hasplugin config "junitxml" = false ∨
  (∃ zz qid, _get_option_of_highest_precedence config "zigzag" = Ret zz ∧
             _get_option_of_highest_precedence config "qtest-project-id"
               = Ret qid ∧
             truthy zz && truthy qid = false) →
  pytest_sessionfinish lib environ config w = (drained w, Ret tt).
Proof.
  unfold pytest_sessionfinish, drained, mbind, hook_bind, lift.
  destruct (messages_drain w) as [w0 [l|e]] eqn:Hd; [|done]. cbn.
  intros [-> | (zz & qid & -> & -> & ->)]; [done|].
  by destruct (hasplugin config "junitxml").
Qed.

(** The hook when upload is enabled: the [try] runs on the drained world. *)
Lemma sessionfinish_enabled (w : World) (zz qid : pyval) :
  hasplugin config "junitxml" = true →
  _get_option_of_highest_precedence config "zigzag" = Ret zz →
  _get_option_of_highest_precedence config "qtest-project-id" = Ret qid →
  truthy zz = true → truthy qid = true →
  pytest_sessionfinish lib environ config w =
  try_ (upload_step lib environ config qid) Exception upload_failed (drained w).
Proof.
  unfold pytest_sessionfinish, drained, mbind, hook_bind, lift.
  destruct (messages_drain w) as [w0 [l|e]] eqn:Hd; [|done]. cbn.
  by intros -> -> -> -> ->.
Qed.

(** An exception raised inside the upload step comes out of the [try] body
    with the buffer untouched. *)
Lemma upload_step_raises (w : World) (qid : pyval) (e : exn) :
  raised_in_upload lib environ config qid e →
  ∃ w', upload_step lib environ config qid w = (w', Raise e) ∧
        SESSION_MESSAGES w' = SESSION_MESSAGES w ∧
        warnings w' = warnings w ∧ terminal w' = terminal w.
Proof.
  unfold upload_step, HookOps.ZigZag, upload_test_results, mbind, hook_bind,
    lift, record_call, mret, hook_ret.
  intros [H1 | p H1 H2 | p t H1 H2 H3 | p t H1 H2 H3 H4]; rewrite H1; cbn.
  - by eexists.
  - rewrite H2. by eexists.
  - rewrite H2. cbn. fold (uploader p t qid). rewrite H3. by eexists.
  - rewrite H2. cbn. fold (uploader p t qid). rewrite H3. cbn. rewrite H4.
    by eexists.
Qed.

End SessionFinish.
(** C4, as the code has it.  With upload enabled, take any exception raised
    inside the upload step (on reading the report path, on reading the
    credential, on constructing the uploader or by the upload call).  If it
    is an instance of [Exception] it is caught: the hook returns normally
    and the buffer holds exactly the failure notice and the message with
    the text of the error.  If it is not (as [KeyboardInterrupt],
    [SystemExit] and pytest's exit and skip signals are not), it is not
    caught: the hook raises that very exception and the buffer stays empty.
    In both cases the terminal and the warnings are untouched. *)
Theorem sessionfinish_catches_exception (lib : ZigZagLib.t)
    (environ : gmap string string) (config : Config) (w : World)
    (zz_option qtest_project_id : pyval) (e : exn) :
  hasplugin config "junitxml" = true →
  _get_option_of_highest_precedence config "zigzag" = Ret zz_option →
  _get_option_of_highest_precedence config "qtest-project-id"
    = Ret qtest_project_id →
  truthy zz_option = true → truthy qtest_project_id = true →
  raised_in_upload lib environ config qtest_project_id e →
  (isinstance e Exception = true →
   ∃ w', pytest_sessionfinish lib environ config w = (w', Ret tt) ∧
         SessionMessages.iter (SESSION_MESSAGES w') = failure_messages e ∧
         Str.contains (exn_str e) (List.last (failure_messages e) EmptyString)
           = true ∧
         warnings w' = warnings w ∧ terminal w' = terminal w) ∧
  (isinstance e Exception = false →
   ∃ w', pytest_sessionfinish lib environ config w = (w', Raise e) ∧
         SessionMessages.iter (SESSION_MESSAGES w') = [] ∧
         warnings w' = warnings w ∧ terminal w' = terminal w).
Proof.
  intros Hplugin Hzz Hqid Hzzt Hqidt Hraised.
  rewrite (sessionfinish_enabled _ _ _ _ _ _ Hplugin Hzz Hqid Hzzt Hqidt).
  destruct (upload_step_raises lib environ config (drained w)
              qtest_project_id e Hraised) as (w1 & Hstep & Hm & Hw & Ht).
  unfold try_. rewrite Hstep. split; intros Hexc; rewrite Hexc.
  - unfold upload_failed, mbind, hook_bind, messages_append. cbn.
    eexists. split; [reflexivity|]. cbn. rewrite Hm, Hw, Ht.
    repeat split.
    do 3 apply StrFacts.contains_skip. apply StrFacts.contains_refl.
  - exists w1. split; [reflexivity|]. by rewrite Hm, Hw, Ht.
Qed.

Lemma sessionfinish_catches_exception_witness :
  (∃ w', pytest_sessionfinish (Samples.raises Samples.boom)
           Samples.token_environ Samples.both_set Samples.stale_world
           = (w', Ret tt) ∧
         SessionMessages.iter (SESSION_MESSAGES w')
           = failure_messages Samples.boom ∧
         Str.contains (exn_str Samples.boom)
           (List.last (failure_messages Samples.boom) EmptyString) = true ∧
         warnings w' = warnings Samples.stale_world ∧
         terminal w' = terminal Samples.stale_world) ∧
  (∃ w', pytest_sessionfinish (Samples.raises Samples.system_exit)
           Samples.token_environ Samples.both_set Samples.stale_world
           = (w', Raise Samples.system_exit) ∧
         SessionMessages.iter (SESSION_MESSAGES w') = [] ∧
         warnings w' = warnings Samples.stale_world ∧
         terminal w' = terminal Samples.stale_world).
Proof.
  split.
  - destruct (sessionfinish_catches_exception (Samples.raises Samples.boom)
                Samples.token_environ Samples.both_set Samples.stale_world
                (PBool true) (PStr "42") Samples.boom) as [Hcaught _];
      try reflexivity.
    + apply (raised_by_upload _ _ _ _ _ "out.xml" "abc123"); reflexivity.
    + apply Hcaught. reflexivity.
  - destruct (sessionfinish_catches_exception
                (Samples.raises Samples.system_exit) Samples.token_environ
                Samples.both_set Samples.stale_world (PBool true) (PStr "42")
                Samples.system_exit) as [_ Hpassed];
      try reflexivity.
    + apply (raised_by_upload _ _ _ _ _ "out.xml" "abc123"); reflexivity.
    + apply Hpassed. reflexivity.
Defined.

(** C4 as stated fails: [KeyboardInterrupt] raised by the upload call is an
    exception raised inside the upload step, but it is not an instance of
    [Exception]; the hook does not catch it, it propagates out of the hook
    and no message is buffered. *)
Lemma sessionfinish_interrupt_propagates :
  hasplugin Samples.both_set "junitxml" = true ∧
  resolves_set Samples.both_set "zigzag" ∧
  resolves_set Samples.both_set "qtest-project-id" ∧
  raised_in_upload (Samples.raises Samples.interrupt) Samples.token_environ
    Samples.both_set (PStr "42") Samples.interrupt ∧
  ∃ w', pytest_sessionfinish (Samples.raises Samples.interrupt)
          Samples.token_environ Samples.both_set Samples.stale_world
          = (w', Raise Samples.interrupt) ∧
        SessionMessages.iter (SESSION_MESSAGES w') = [].
Proof.
  split; [reflexivity|].
  split; [by exists (PBool true)|].
  split; [by exists (PStr "42")|].
  split.
  - apply (raised_by_upload _ _ _ _ _ "out.xml" "abc123"); reflexivity.
  - eexists. split; reflexivity.
Qed.

(** ** Upload outcome and the terminal summary *)

Section UploadLog.

Variable lib : ZigZagLib.t.
Variable environ : gmap string string.
Variable config : Config.

(** Draining touches the buffer alone. *)
Lemma drained_fields (w : World) :
  SessionMessages.iter (SESSION_MESSAGES (drained w)) = [] ∧
  zigzag_calls (drained w) = zigzag_calls w ∧
  warnings (drained w) = warnings w ∧
  terminal (drained w) = terminal w.
Proof. done. Qed.

(** When the [try] body ran from a world without library calls and the log
    then shows an upload call, the result of that call decides the outcome:
    a returned job id gives the two success messages, an exception comes
    out of the body with the buffer and the log as they were at the call. *)
Lemma upload_step_logged (qid : pyval) (w w' : World) (r : result unit)
    (zz : ZigZagLib.ZigZag) :
  zigzag_calls w = [] →
  upload_step lib environ config qid w = (w', r) →
  ZigZagLib.Uploaded zz ∈ zigzag_calls w' →
  match ZigZagLib.upload_test_results lib zz with
  | Ret job_id =>
      r = Ret tt ∧
      SessionMessages.iter (SESSION_MESSAGES w')
        = SessionMessages.iter (SESSION_MESSAGES w) ++ success_messages job_id
  | Raise e => r = Raise e
  end ∧ warnings w' = warnings w ∧ terminal w' = terminal w.
Proof.
  intros Hcalls.
  unfold upload_step, HookOps.ZigZag, upload_test_results, mbind, hook_bind,
    lift, record_call, messages_append, mret, hook_ret.
  destruct (xml_logfile config) as [p|e1]; cbn.
  2: { intros [= <- <-]. rewrite Hcalls. by intros ?%elem_of_nil. }
  destruct (environ_getitem environ "QTEST_API_TOKEN") as [t|e2]; cbn.
  2: { intros [= <- <-]. rewrite Hcalls. by intros ?%elem_of_nil. }
  fold (uploader p t qid). rewrite Hcalls. cbn.
  destruct (ZigZagLib.init lib (uploader p t qid)) as [[]|e3]; cbn.
  2: { intros [= <- <-]. cbn. by intros [=]%list_elem_of_singleton. }
  destruct (ZigZagLib.upload_test_results lib (uploader p t qid))
    as [job_id|e4] eqn:Hup; cbn.
  - intros [= <- <-]. cbn. intros Hin.
    assert (zz = uploader p t qid) as ->.
    { apply elem_of_cons in Hin as [[=] | Hin].
      apply list_elem_of_singleton in Hin. by injection Hin. }
    rewrite Hup. cbn. by rewrite <- app_assoc.
  - intros [= <- <-]. cbn. intros Hin.
    assert (zz = uploader p t qid) as ->.
    { apply elem_of_cons in Hin as [[=] | Hin].
      apply list_elem_of_singleton in Hin. by injection Hin. }
    by rewrite Hup.
Qed.

(** The log after the hook is the log before it followed by the calls of
    the hook; when upload is not enabled there are none. *)
Lemma sessionfinish_idle_calls (w : World) :
  hasplugin config "junitxml" = false ∨
  (∃ zz qid, _get_option_of_highest_precedence config "zigzag" = Ret zz ∧
             _get_option_of_highest_precedence config "qtest-project-id"
               = Ret qid ∧
             truthy zz && truthy qid = false) →
  ∃ w', pytest_sessionfinish lib environ config w = (w', Ret tt) ∧
        SessionMessages.iter (SESSION_MESSAGES w') = [] ∧
        zigzag_calls w' = zigzag_calls w ∧
        warnings w' = warnings w ∧ terminal w' = terminal w.
Proof.
  intros H. rewrite (sessionfinish_idle _ _ _ _ H). by eexists.
Qed.

End UploadLog.

(** The terminal summary writes the buffered messages, one line each, in
    insertion order, and leaves everything else alone. *)
Lemma for_write_line (lines : list string) (w : World) :
  ∃ w', for_ lines write_line w = (w', Ret tt) ∧
        terminal w' = terminal w ++ lines ∧
        SESSION_MESSAGES w' = SESSION_MESSAGES w ∧
        zigzag_calls w' = zigzag_calls w ∧ warnings w' = warnings w.
Proof.
  revert w. induction lines as [|l lines IH]; intros w.
  - exists w. by rewrite app_nil_r.
  - cbn [for_]. unfold mbind, hook_bind. cbn.
    destruct (IH {| SESSION_MESSAGES := SESSION_MESSAGES w;
                    zigzag_calls := zigzag_calls w;
                    warnings := warnings w;
                    terminal := terminal w ++ [l] |})
      as (w' & -> & Ht & Hm & Hc & Hw).
    exists w'. cbn in *. by rewrite Ht, <- app_assoc.
Qed.

Lemma terminal_summary_writes (w : World) :
  ∃ w', pytest_terminal_summary w = (w', Ret tt) ∧
        terminal w' = terminal w ++ SessionMessages.iter (SESSION_MESSAGES w) ∧
        SESSION_MESSAGES w' = SESSION_MESSAGES w ∧
        zigzag_calls w' = zigzag_calls w ∧ warnings w' = warnings w.
Proof.
  unfold pytest_terminal_summary, mbind, hook_bind, messages_iter.
  apply for_write_line.
Qed.

(** C5.  With the report add-on active, both options resolved to set
    values, a report path and a credential in the environment, when the
    constructor of the uploader returns and the upload call returns a job
    id, the session-finish hook returns normally, has called the library
    exactly for that construction and that upload, and leaves in the buffer
    exactly ["ZigZag upload was successful!"] and ["Queue Job ID: " + job
    id]; the terminal summary then writes these two lines after what the
    terminal already shows.  And in every world the terminal summary writes
    the buffered messages one per line in insertion order. *)
Theorem sessionfinish_success_summary (lib : ZigZagLib.t)
    (environ : gmap string string) (config : Config) (w : World)
    (zz_option qtest_project_id : pyval) (xml : LogXML)
    (api_token : string) (job_id : pyval) :
  hasplugin config "junitxml" = true →
  _get_option_of_highest_precedence config "zigzag" = Ret zz_option →
  _get_option_of_highest_precedence config "qtest-project-id"
    = Ret qtest_project_id →
  truthy zz_option = true → truthy qtest_project_id = true →
  _xml config = Some xml →
  environ !! "QTEST_API_TOKEN" = Some api_token →
  ZigZagLib.init lib (uploader (logfile xml) api_token qtest_project_id)
    = Ret tt →
  ZigZagLib.upload_test_results lib
    (uploader (logfile xml) api_token qtest_project_id) = Ret job_id →
  (∃ w1,
     pytest_sessionfinish lib environ config w = (w1, Ret tt) ∧
     SessionMessages.iter (SESSION_MESSAGES w1) = success_messages job_id ∧
     zigzag_calls w1
       = zigzag_calls w
         ++ [ ZigZagLib.Constructed
                (uploader (logfile xml) api_token qtest_project_id);
              ZigZagLib.Uploaded
                (uploader (logfile xml) api_token qtest_project_id) ] ∧
     warnings w1 = warnings w ∧
     ∃ w2, pytest_terminal_summary w1 = (w2, Ret tt) ∧
           terminal w2 = terminal w ++ success_messages job_id) ∧
  (∀ w0, ∃ w', pytest_terminal_summary w0 = (w', Ret tt) ∧
               terminal w' = terminal w0
                             ++ SessionMessages.iter (SESSION_MESSAGES w0)).
Proof.
  intros Hplugin Hzz Hqid Hzzt Hqidt Hxml Henv Hinit Hup. split.
  - rewrite (sessionfinish_enabled _ _ _ _ _ _ Hplugin Hzz Hqid Hzzt Hqidt).
    unfold try_, upload_step, HookOps.ZigZag, upload_test_results, mbind,
      hook_bind, lift, record_call, messages_append, mret, hook_ret,
      xml_logfile, environ_getitem.
    rewrite Hxml, Henv. cbn.
    fold (uploader (logfile xml) api_token qtest_project_id).
    rewrite Hinit. cbn. rewrite Hup. cbn.
    eexists. split; [reflexivity|]. cbn.
    split; [reflexivity|]. split; [by rewrite <- app_assoc|].
    split; [reflexivity|].
    edestruct terminal_summary_writes as (w2 & Hsum & Ht & _).
    exists w2. split; [exact Hsum|]. by rewrite Ht.
  - intros w0. destruct (terminal_summary_writes w0) as (w' & Hsum & Ht & _).
    by exists w'.
Qed.

Lemma sessionfinish_success_summary_witness :
  ∃ w1,
    pytest_sessionfinish Samples.returns_99 Samples.token_environ
      Samples.both_set Samples.stale_world = (w1, Ret tt) ∧
    SessionMessages.iter (SESSION_MESSAGES w1)
      = [ "ZigZag upload was successful!"; "Queue Job ID: 99" ] ∧
    zigzag_calls w1
      = zigzag_calls Samples.stale_world
        ++ [ ZigZagLib.Constructed (uploader "out.xml" "abc123" (PStr "42"));
             ZigZagLib.Uploaded (uploader "out.xml" "abc123" (PStr "42")) ] ∧
    warnings w1 = warnings Samples.stale_world ∧
    ∃ w2, pytest_terminal_summary w1 = (w2, Ret tt) ∧
          terminal w2
            = terminal Samples.stale_world
              ++ [ "ZigZag upload was successful!"; "Queue Job ID: 99" ].
Proof.
  exact (proj1 (sessionfinish_success_summary Samples.returns_99
                  Samples.token_environ Samples.both_set Samples.stale_world
                  (PBool true) (PStr "42") {| logfile := "out.xml" |}
                  "abc123" (PStr "99") eq_refl eq_refl eq_refl eq_refl
                  eq_refl eq_refl eq_refl eq_refl eq_refl)).
Defined.

(** ** Mismatched upload options *)

(** C7.  When exactly one of the zigzag option and the project id resolves
    to a set value, the configure hook returns normally after giving pytest
    the warning 101 with the mismatch message, and the session-finish hook
    returns normally without any call to the upload library and without
    buffering a message.  In general, whenever the session-finish hook
    calls the upload library or buffers a message, the add-on is active and
    both options resolve to set values. *)
Theorem mismatch_warns_and_skips_upload (lib : ZigZagLib.t)
    (environ : gmap string string) (config : Config) (w : World)
    (zz qtpid : pyval) :
  _get_option_of_highest_precedence config "zigzag" = Ret zz →
  _get_option_of_highest_precedence config "qtest-project-id" = Ret qtpid →
  (xorb (truthy zz) (truthy qtpid) = true →
   (∃ w', pytest_configure config w = (w', Ret tt) ∧
          warnings w' = warnings w ++ [(101%Z, ZZ_WARN_MESSAGE)] ∧
          SESSION_MESSAGES w' = SESSION_MESSAGES w ∧
          zigzag_calls w' = zigzag_calls w ∧ terminal w' = terminal w) ∧
   (∃ w', pytest_sessionfinish lib environ config w = (w', Ret tt) ∧
          zigzag_calls w' = zigzag_calls w ∧
          SessionMessages.iter (SESSION_MESSAGES w') = [] ∧
          warnings w' = warnings w ∧ terminal w' = terminal w)) ∧
  (∀ w1 r, pytest_sessionfinish lib environ config w = (w1, r) →
           zigzag_calls w1 ≠ zigzag_calls w ∨
           SessionMessages.iter (SESSION_MESSAGES w1) ≠ [] →
           hasplugin config "junitxml" = true ∧
           truthy zz = true ∧ truthy qtpid = true).
Proof.
  intros Hzz Hqid. split.
  - intros Hxor. split.
    + unfold pytest_configure, mbind, hook_bind, lift. rewrite Hzz, Hqid.
      unfold py_any, py_all. cbn.
      destruct (truthy zz), (truthy qtpid); try discriminate Hxor;
        cbn; by eexists.
    + assert (truthy zz && truthy qtpid = false) as Hoff
        by (by destruct (truthy zz), (truthy qtpid)).
      destruct (sessionfinish_idle_calls lib environ config w)
        as (w' & Hrun & Hm & Hc & Hw & Ht).
      { right. by exists zz, qtpid. }
      by exists w'.
  - intros w1 r Hrun Hchanged.
    destruct (hasplugin config "junitxml") eqn:Hplugin.
    + destruct (truthy zz && truthy qtpid) eqn:Hboth.
      * by apply andb_true_iff in Hboth as [-> ->].
      * destruct (sessionfinish_idle_calls lib environ config w)
          as (w' & Hrun' & Hm & Hc & _).
        { right. by exists zz, qtpid. }
        rewrite Hrun in Hrun'. injection Hrun' as -> ->.
        by destruct Hchanged.
    + destruct (sessionfinish_idle_calls lib environ config w
                  (or_introl Hplugin)) as (w' & Hrun' & Hm & Hc & _).
      rewrite Hrun in Hrun'. injection Hrun' as -> ->.
      by destruct Hchanged.
Qed.

Lemma mismatch_warns_and_skips_upload_witness :
  (∃ w', pytest_configure Samples.only_zigzag Samples.stale_world
           = (w', Ret tt) ∧
         warnings w' = [(101%Z, ZZ_WARN_MESSAGE)]) ∧
  (∃ w', pytest_sessionfinish Samples.returns_99 Samples.token_environ
           Samples.only_zigzag Samples.stale_world = (w', Ret tt) ∧
         zigzag_calls w' = [] ∧
         SessionMessages.iter (SESSION_MESSAGES w') = []) ∧
  hasplugin Samples.both_set "junitxml" = true ∧
  truthy (PBool true) = true ∧ truthy (PStr "42") = true.
Proof.
  destruct (mismatch_warns_and_skips_upload Samples.returns_99
              Samples.token_environ Samples.only_zigzag Samples.stale_world
              (PBool true) PNone eq_refl eq_refl) as (Hone & _).
  destruct (Hone eq_refl)
    as ((w' & Hc & Hw & _) & (w'' & Hs & Hcalls & Hm & _)).
  split; [by exists w'|]. split; [by exists w''|].
  destruct (mismatch_warns_and_skips_upload Samples.returns_99
              Samples.token_environ Samples.both_set Samples.stale_world
              (PBool true) (PStr "42") eq_refl eq_refl) as (_ & Hboth).
  apply (Hboth _ _ eq_refl). right. vm_compute. discriminate.
Defined.

(** ** The per-test hooks *)

Section EndTime.

Lemma enumerate_from_snoc {A} (n : nat) (l : list A) (x : A) :
  enumerate_from n (l ++ [x]) = enumerate_from n l ++ [(n + length l, x)].
Proof.
  revert n. induction l as [|y l IH]; intros n; cbn.
  - by rewrite Nat.add_0_r.
  - rewrite IH. by replace (S n + length l) with (n + S (length l)) by lia.
Qed.

(** The search ends at the last ['end_time'] tuple, or at [None] when the
    list has no such tuple. *)
Lemma end_time_position_spec (props : list (string * pyval)) :
  match end_time_position props with
  | None => Forall (λ tup, tup.1 ≠ "end_time") props
  | Some n =>
      ∃ pre v post, props = pre ++ ("end_time", v) :: post ∧
                    length pre = n ∧
                    Forall (λ tup, tup.1 ≠ "end_time") post
  end.
Proof.
  unfold end_time_position.
  induction props as [|[k v] props IH] using rev_ind; [by cbn|].
  rewrite enumerate_from_snoc, foldl_snoc. cbn [fst].
  destruct (String.eqb k "end_time") eqn:Hk.
  - apply String.eqb_eq in Hk as ->. exists props, v, [].
    split; [done|]. split; [done | constructor].
  - apply String.eqb_neq in Hk.
    destruct (foldl _ None (enumerate_from 0 props)) as [n|].
    + destruct IH as (pre & v0 & post & -> & Hlen & Hpost).
      exists pre, v0, (post ++ [(k, v)]). split; [by rewrite <- app_assoc|].
      split; [done|]. apply Forall_app. split; [done|].
      by apply Forall_singleton.
    + apply Forall_app. split; [done|]. by apply Forall_singleton.
Qed.

End EndTime.

(** C9.  The teardown hook changes nothing of the item but its property
    list, and of that list either appends the ['end_time'] tuple with the
    teardown timestamp, when no tuple has that key, or replaces the last
    tuple with that key by it, every other tuple keeping its content and
    its place. *)
Theorem teardown_sets_end_time (now : string) (item : Item) :
  name (pytest_runtest_teardown now item) = name item ∧
  keywords (pytest_runtest_teardown now item) = keywords item ∧
  parent (pytest_runtest_teardown now item) = parent item ∧
  ((Forall (λ tup, tup.1 ≠ "end_time") (user_properties item) ∧
    user_properties (pytest_runtest_teardown now item)
      = user_properties item ++ [("end_time", PStr now)]) ∨
   (∃ pre v post,
      user_properties item = pre ++ ("end_time", v) :: post ∧
      Forall (λ tup, tup.1 ≠ "end_time") post ∧
      user_properties (pytest_runtest_teardown now item)
        = pre ++ ("end_time", PStr now) :: post)).
Proof.
  unfold pytest_runtest_teardown.
  pose proof (end_time_position_spec (user_properties item)) as Hpos.
  destruct (end_time_position (user_properties item)) as [n|].
  - repeat split. right.
    destruct Hpos as (pre & v & post & Hprops & Hlen & Hpost).
    exists pre, v, post. split; [done|]. split; [done|]. cbn.
    rewrite Hprops, <- Hlen.
    replace (length pre) with (length pre + 0) by lia.
    by rewrite insert_app_r.
  - repeat split. by left.
Qed.

(** C10.  The setup hook always appends ['start_time'] and ['end_time']
    with one and the same timestamp, skipping or not; it skips exactly when
    the item carries the steps mark, its name contains neither ["setup"]
    nor ["teardown"], and the parent records a failed step; so an item
    whose name contains either word is never skipped, whatever the parent
    records. *)
Theorem setup_records_times_and_skips (now : string) (item : Item) :
  user_properties (pytest_runtest_setup now item).1
    = user_properties item ++ [("start_time", PStr now); ("end_time", PStr now)] ∧
  name (pytest_runtest_setup now item).1 = name item ∧
  (∀ msg, (pytest_runtest_setup now item).2 = Raise (PytestSkipped msg) ↔
          "test_case_with_steps" ∈ keywords item ∧
          Str.contains "setup" (name item) = false ∧
          Str.contains "teardown" (name item) = false ∧
          ∃ previous, _previousfailed (parent item) = Some previous ∧
                      msg = "because previous test failed: " +:+ previous) ∧
  (Str.contains "setup" (name item) = true ∨
   Str.contains "teardown" (name item) = true →
   (pytest_runtest_setup now item).2 = Ret tt) ∧
  ((pytest_runtest_setup now item).2 = Ret tt ∨
   ∃ msg, (pytest_runtest_setup now item).2 = Raise (PytestSkipped msg)).
Proof.
  unfold pytest_runtest_setup, pytest_skip. cbn.
  split; [by rewrite <- app_assoc|]. split; [done|].
  destruct (bool_decide_reflect ("test_case_with_steps" ∈ keywords item))
    as [Hin|Hnotin]; cbn [andb].
  2: { split; [|split; [done | by left]].
       intros msg. split; [done | by intros (? & _)]. }
  destruct (Str.contains "setup" (name item)); cbn [andb negb].
  { split; [|split; [done | by left]].
    intros msg. split; [done | by intros (_ & ? & _)]. }
  destruct (Str.contains "teardown" (name item)); cbn [andb negb].
  { split; [|split; [done | by left]].
    intros msg. split; [done | by intros (_ & _ & ? & _)]. }
  destruct (_previousfailed (parent item)) as [previous|].
  - split; [|split; [by intros [|] | right; by eexists]].
    intros msg. split.
    + intros [= <-]. repeat split; [done|]. by exists previous.
    + by intros (_ & _ & _ & p & [= <-] & ->).
  - split; [|split; [done | by left]].
    intros msg. split; [done | by intros (_ & _ & _ & ? & ? & _)].
Qed.

Lemma teardown_sets_end_time_witness :
  name (pytest_runtest_teardown "2019-01-01T10:00:07Z"
          ItemSamples.second_step) = "test_step_two" ∧
  ∃ pre v post,
    user_properties ItemSamples.second_step
      = pre ++ ("end_time", v) :: post ∧
    Forall (λ tup, tup.1 ≠ "end_time") post ∧
    user_properties
      (pytest_runtest_teardown "2019-01-01T10:00:07Z" ItemSamples.second_step)
      = pre ++ ("end_time", PStr "2019-01-01T10:00:07Z") :: post.
Proof.
  destruct (teardown_sets_end_time "2019-01-01T10:00:07Z"
              ItemSamples.second_step) as (Hname & _ & _ & [[Hno _] | H]).
  - exfalso. cbn in Hno.
    do 3 apply Forall_cons in Hno as [? Hno]. done.
  - split; [exact Hname | exact H].
Defined.

Lemma setup_records_times_and_skips_witness :
  (pytest_runtest_setup "2019-01-01T10:00:00Z" ItemSamples.second_step).2
    = Raise (PytestSkipped "because previous test failed: test_step_one") ∧
  (pytest_runtest_setup "2019-01-01T10:00:00Z" ItemSamples.group_teardown).2
    = Ret tt.
Proof.
  split.
  - apply (proj1 (proj2 (proj2 (setup_records_times_and_skips
                                  "2019-01-01T10:00:00Z"
                                  ItemSamples.second_step)))).
    split; [by vm_compute|]. split; [reflexivity|]. split; [reflexivity|].
    exists "test_step_one". split; reflexivity.
  - apply (proj1 (proj2 (proj2 (proj2 (setup_records_times_and_skips
                                         "2019-01-01T10:00:00Z"
                                         ItemSamples.group_teardown))))).
    right. reflexivity.
Defined.

(** * Further properties of the module *)

(** ** Resolver and token *)

(** X1.  The resolver never raises and resolves to a set (truthy) value
    exactly when the command line or the ini file holds a truthy value for
    the option; a result that is not set is the ini value, or [None] when
    the key is not registered, never the falsy value of the flag. *)
Theorem resolver_set_iff (config : Config) (option_name : string) :
  ∃ v, _get_option_of_highest_precedence config option_name = Ret v ∧
       (truthy v = true ↔
        (∃ c, cli_value config option_name = Some c ∧ truthy c = true) ∨
        (∃ i, ini_value config option_name = Some i ∧ truthy i = true)) ∧
       (truthy v = false →
        v = default PNone (ini_value config option_name)).
Proof.
  rewrite resolver_unfold. eexists. split; [reflexivity|].
  unfold py_or.
  destruct (cli_value config option_name) as [c|]; cbn.
  - destruct (truthy c) eqn:Hc.
    + split; [|congruence]. split; [|done]. intros _. left. by exists c.
    + split; [|done]. split.
      * intros Hi. right.
        destruct (ini_value config option_name) as [i|]; [by exists i | done].
      * intros [(c' & [= <-] & Hc') | (i & -> & Hi)]; [congruence | done].
  - split; [|done]. split.
    + intros Hi. right.
      destruct (ini_value config option_name) as [i|]; [by exists i | done].
    + intros [(c' & [=] & _) | (i & -> & Hi)]. done.
Qed.

(** X2.  Validating a token twice is the same as validating it once: what
    the helper returns is always accepted by the helper. *)
Theorem validate_token_idempotent (token : string) :
  _validate_qtest_token (_validate_qtest_token token)
  = _validate_qtest_token token.
Proof.
  destruct (Re.match_ token_pattern token) eqn:Hm.
  - assert (_validate_qtest_token token = token) as Hv
      by (unfold _validate_qtest_token; by rewrite Hm).
    by rewrite !Hv.
  - assert (_validate_qtest_token token = EmptyString) as Hv
      by (unfold _validate_qtest_token; by rewrite Hm).
    by rewrite Hv.
Qed.

(** X3.  The helper returns either the token itself or the empty string,
    and it returns a non-empty token unchanged exactly when the token is a
    non-empty run of ASCII letters and digits, optionally followed by one
    newline; so the empty token and every token with any other character
    come back empty. *)
Theorem validate_token_accepts_iff (token : string) :
  (_validate_qtest_token token = token ∨
   _validate_qtest_token token = EmptyString) ∧
  (_validate_qtest_token token ≠ EmptyString ↔
   ∃ body, body ≠ EmptyString ∧ Re.all_in_set alnum body = true ∧
           (token = body ∨ token = body +:+ nl)) ∧
  _validate_qtest_token EmptyString = EmptyString.
Proof.
  split; [|split; [|reflexivity]].
  - unfold _validate_qtest_token.
    destruct (Re.match_ token_pattern token); [by left | by right].
  - rewrite <- token_pattern_matches. unfold _validate_qtest_token.
    destruct (Re.match_ token_pattern token) eqn:Hm.
    + split; [done|]. intros _ ->. discriminate Hm.
    + split; [done | discriminate].
Qed.

(** ** The loader *)

(** X4.  Provided the packaged schema loads, the loader returns a document
    only if the file was read, its text parsed to that document and the
    document passed validation against the schema: nothing that failed to
    parse or to validate is ever returned. *)
Theorem load_config_file_sound (env : LoaderEnv) (config_file : string)
    (schema d : Json.value) :
  (∃ text, resource_stream env "pytest_zigzag" schema_resource = Ret text ∧
           loads env text = Ret schema) →
  _load_config_file env config_file = Ret d →
  ∃ text, open_read env config_file = Ret text ∧
          loads env text = Ret d ∧
          validate env d schema = Ret tt.
Proof.
  intros Hschema. rewrite (load_config_file_unfold _ _ _ Hschema).
  destruct (open_read env config_file) as [text|e] eqn:Hopen; cbn.
  - destruct (loads env text) as [d'|e] eqn:Hloads.
    + destruct (validate env d' schema) as [[]|e] eqn:Hval.
      * intros [= <-]. by exists text.
      * by destruct (isinstance e ValidationError).
    + by destruct (isinstance e OSError || isinstance e IOError),
         (isinstance e ValueError).
  - by destruct (isinstance e OSError || isinstance e IOError),
       (isinstance e ValueError).
Qed.

Lemma load_config_file_sound_witness :
  ∃ text, open_read LoaderSamples.env "good.json" = Ret text ∧
          loads LoaderSamples.env text = Ret LoaderSamples.good_document ∧
          validate LoaderSamples.env LoaderSamples.good_document
            (Json.JObj []) = Ret tt.
Proof.
  apply (load_config_file_sound LoaderSamples.env "good.json" (Json.JObj [])
           LoaderSamples.good_document).
  - exists "the schema". split; reflexivity.
  - reflexivity.
Defined.

(** X5.  Provided the packaged schema loads, the loader turns into an exit
    only the exceptions its handlers name: an exception of reading or
    parsing that is no [OSError], [IOError] or [ValueError], and an
    exception of validation that is no [ValidationError], leave the loader
    as they are, without exit code and without the path. *)
Theorem load_config_file_passes_foreign (env : LoaderEnv)
    (config_file : string) (schema : Json.value) :
  (∃ text, resource_stream env "pytest_zigzag" schema_resource = Ret text ∧
           loads env text = Ret schema) →
  (∀ e, (text ← open_read env config_file; loads env text) = Raise e →
        isinstance e OSError = false → isinstance e IOError = false →
        isinstance e ValueError = false →
        _load_config_file env config_file = Raise e) ∧
  (∀ text d e, open_read env config_file = Ret text →
               loads env text = Ret d →
               validate env d schema = Raise e →
               isinstance e ValidationError = false →
               _load_config_file env config_file = Raise e).
Proof.
  intros Hschema. split.
  - intros e Hbody Hos Hio Hval.
    rewrite (load_config_file_unfold _ _ _ Hschema), Hbody.
    by rewrite Hos, Hio, Hval.
  - intros text d e Hopen Hloads Hval Hcls.
    rewrite (load_config_file_unfold _ _ _ Hschema), Hopen. cbn.
    by rewrite Hloads, Hval, Hcls.
Qed.

Lemma load_config_file_passes_foreign_witness :
  _load_config_file LoaderEdgeSamples.interrupted "conf.json"
  = Raise Samples.interrupt.
Proof.
  assert (∃ text,
            resource_stream LoaderEdgeSamples.interrupted "pytest_zigzag"
              schema_resource = Ret text ∧
            loads LoaderEdgeSamples.interrupted text = Ret (Json.JObj []))
    as Hschema by (exists "the schema"; split; reflexivity).
  apply (proj1 (load_config_file_passes_foreign LoaderEdgeSamples.interrupted
                  "conf.json" (Json.JObj []) Hschema));
    reflexivity.
Defined.

(** X6.  The packaged schema is read and parsed before the config file is
    touched: when that fails the loader raises that very exception,
    whatever the path and whatever the file holds, and does not turn it
    into an exit, even when it is an [OSError] or a [ValueError]. *)
Theorem load_config_file_schema_first (env : LoaderEnv)
    (config_file : string) (e : exn) :
  (text ← resource_stream env "pytest_zigzag" schema_resource;
   loads env text) = Raise e →
  _load_config_file env config_file = Raise e ∧
  ∀ other_file open_read',
    _load_config_file
      {| resource_stream := resource_stream env;
         open_read := open_read';
         loads := loads env;
         validate := validate env |} other_file = Raise e.
Proof.
  intros Hschema. unfold _load_config_file. fold schema_resource.
  split.
  - by rewrite Hschema.
  - intros other_file open_read'. cbn [resource_stream loads].
    by rewrite Hschema.
Qed.

Lemma load_config_file_schema_first_witness :
  _load_config_file LoaderEdgeSamples.without_schema "conf.json"
  = Raise LoaderEdgeSamples.no_such_file.
Proof.
  apply (load_config_file_schema_first LoaderEdgeSamples.without_schema
           "conf.json" LoaderEdgeSamples.no_such_file).
  reflexivity.
Defined.

(** ** The session-finish hook as a whole *)

Section FinishClosed.

Variable lib : ZigZagLib.t.
Variable environ : gmap string string.
Variable config : Config.

(** The [try] body follows the trace: it makes the calls of the trace, and
    buffers the two success messages when the trace ends with a job id. *)
Lemma upload_step_trace (qid : pyval) (w : World) :
  upload_step lib environ config qid w =
  match (upload_trace lib environ config qid).2 with
  | Ret job_id =>
      (after_upload w (upload_trace lib environ config qid).1
         (SessionMessages.iter (SESSION_MESSAGES w) ++ success_messages job_id),
       Ret tt)
  | Raise e =>
      (after_upload w (upload_trace lib environ config qid).1
         (SessionMessages.iter (SESSION_MESSAGES w)),
       Raise e)
  end.
Proof.
  destruct w as [[msgs] calls warns term].
  unfold upload_step, upload_trace, HookOps.ZigZag, upload_test_results,
    mbind, hook_bind, lift, record_call, messages_append, mret, hook_ret,
    after_upload.
  destruct (xml_logfile config) as [p|e1]; cbn; [|by rewrite app_nil_r].
  destruct (environ_getitem environ "QTEST_API_TOKEN") as [t|e2]; cbn;
    [|by rewrite app_nil_r].
  fold (uploader p t qid).
  destruct (ZigZagLib.init lib (uploader p t qid)) as [[]|e3]; cbn; [|done].
  destruct (ZigZagLib.upload_test_results lib (uploader p t qid))
    as [job_id|e4]; cbn; unfold SessionMessages.append, success_messages;
    cbn; by rewrite <- !app_assoc.
Qed.

(** The hook with upload enabled, in closed form. *)
Lemma sessionfinish_closed (w : World) (zz qid : pyval) :
  hasplugin config "junitxml" = true →
  _get_option_of_highest_precedence config "zigzag" = Ret zz →
  _get_option_of_highest_precedence config "qtest-project-id" = Ret qid →
  truthy zz = true → truthy qid = true →
  pytest_sessionfinish lib environ config w =
  (after_upload w (upload_trace lib environ config qid).1
     (finish_outcome (upload_trace lib environ config qid)).1,
   (finish_outcome (upload_trace lib environ config qid)).2).
Proof.
  intros Hplugin Hzz Hqid Hzzt Hqidt.
  rewrite (sessionfinish_enabled _ _ _ _ _ _ Hplugin Hzz Hqid Hzzt Hqidt).
  unfold try_, finish_outcome. rewrite upload_step_trace.
  destruct ((upload_trace lib environ config qid).2) as [job_id|e]; [done|].
  destruct (isinstance e Exception); [|done].
  unfold upload_failed, mbind, hook_bind, messages_append, after_upload.
  by cbn.
Qed.

(** The hook with upload not enabled, in the same form. *)
Lemma sessionfinish_idle_closed (w : World) :
  hasplugin config "junitxml" = false ∨
  (∃ zz qid, _get_option_of_highest_precedence config "zigzag" = Ret zz ∧
             _get_option_of_highest_precedence config "qtest-project-id"
               = Ret qid ∧
             truthy zz && truthy qid = false) →
  pytest_sessionfinish lib environ config w = (after_upload w [] [], Ret tt).
Proof.
  intros H. rewrite (sessionfinish_idle _ _ _ _ H).
  unfold drained, messages_drain, after_upload. cbn. by rewrite app_nil_r.
Qed.

(** Either the hook is idle in every world, or in every world it runs the
    upload step for the project id the resolver gives. *)
Lemma sessionfinish_cases :
  (∀ w, pytest_sessionfinish lib environ config w
        = (after_upload w [] [], Ret tt)) ∨
  ∃ qid, hasplugin config "junitxml" = true ∧
         _get_option_of_highest_precedence config "qtest-project-id"
           = Ret qid ∧
         ∀ w, pytest_sessionfinish lib environ config w =
              (after_upload w (upload_trace lib environ config qid).1
                 (finish_outcome (upload_trace lib environ config qid)).1,
               (finish_outcome (upload_trace lib environ config qid)).2).
Proof.
  destruct (hasplugin config "junitxml") eqn:Hplugin.
  2: { left. intros w. apply sessionfinish_idle_closed. by left. }
  pose proof (resolver_unfold config "zigzag") as Hzz.
  pose proof (resolver_unfold config "qtest-project-id") as Hqid.
  destruct (truthy (py_or (default PNone (cli_value config "zigzag"))
                          (default PNone (ini_value config "zigzag"))))
    eqn:Hzzt.
  2: { left. intros w. apply sessionfinish_idle_closed. right.
       eexists _, _. split; [exact Hzz|]. split; [exact Hqid|].
       by rewrite Hzzt. }
  destruct (truthy (py_or (default PNone (cli_value config "qtest-project-id"))
                          (default PNone (ini_value config "qtest-project-id"))))
    eqn:Hqidt.
  2: { left. intros w. apply sessionfinish_idle_closed. right.
       eexists _, _. split; [exact Hzz|]. split; [exact Hqid|].
       by rewrite Hqidt, andb_false_r. }
  right. eexists. split; [done|]. split; [exact Hqid|].
  intros w. by apply (sessionfinish_closed w _ _ Hplugin Hzz Hqid).
Qed.

(** The shapes a trace can have. *)
Lemma upload_trace_calls (qid : pyval) :
  (upload_trace lib environ config qid).1 = [] ∨
  ∃ xml api_token,
    _xml config = Some xml ∧
    environ !! "QTEST_API_TOKEN" = Some api_token ∧
    ((upload_trace lib environ config qid).1
       = [ZigZagLib.Constructed (uploader (logfile xml) api_token qid)] ∨
     (upload_trace lib environ config qid).1
       = [ZigZagLib.Constructed (uploader (logfile xml) api_token qid);
          ZigZagLib.Uploaded (uploader (logfile xml) api_token qid)]).
Proof.
  unfold upload_trace, xml_logfile, environ_getitem.
  destruct (_xml config) as [xml|]; [|by left].
  destruct (environ !! "QTEST_API_TOKEN") as [t|]; [|by left].
  right. exists xml, t. split; [done|]. split; [done|].
  destruct (ZigZagLib.init lib _); [by right | by left].
Qed.

End FinishClosed.

(** X7.  What the session-finish hook leaves in the buffer and how it ends
    do not depend on the world it starts in: messages left over from an
    earlier pass never survive.  The buffer then holds no message or
    exactly two, and the hook writes nothing to the terminal and gives no
    warning. *)
Theorem sessionfinish_buffer_fresh (lib : ZigZagLib.t)
    (environ : gmap string string) (config : Config) (w other : World) :
  SESSION_MESSAGES (pytest_sessionfinish lib environ config w).1
    = SESSION_MESSAGES (pytest_sessionfinish lib environ config other).1 ∧
  (pytest_sessionfinish lib environ config w).2
    = (pytest_sessionfinish lib environ config other).2 ∧
  (length (SessionMessages.iter
             (SESSION_MESSAGES (pytest_sessionfinish lib environ config w).1))
     = 0 ∨
   length (SessionMessages.iter
             (SESSION_MESSAGES (pytest_sessionfinish lib environ config w).1))
     = 2) ∧
  warnings (pytest_sessionfinish lib environ config w).1 = warnings w ∧
  terminal (pytest_sessionfinish lib environ config w).1 = terminal w.
Proof.
  destruct (sessionfinish_cases lib environ config)
    as [Hidle | (qid & _ & _ & Hrun)].
  - rewrite (Hidle w), (Hidle other). cbn. by auto.
  - rewrite (Hrun w), (Hrun other). cbn. split; [done|]. split; [done|].
    split; [|done]. unfold finish_outcome.
    destruct ((upload_trace lib environ config qid).2) as [job_id|e];
      [by right|].
    destruct (isinstance e Exception); [by right | by left].
Qed.

(** X8.  One pass of the session-finish hook makes at most one attempt: it
    adds to the calls of the upload library nothing, or one construction,
    or one construction followed by one upload on the object constructed.
    That object carries the report path of [config._xml], the credential
    from the environment after validation, the resolved project id and
    [None]. *)
Theorem sessionfinish_single_attempt (lib : ZigZagLib.t)
    (environ : gmap string string) (config : Config) (w : World) :
  ∃ calls,
    zigzag_calls (pytest_sessionfinish lib environ config w).1
      = zigzag_calls w ++ calls ∧
    (calls = [] ∨
     ∃ xml api_token qid zz,
       _xml config = Some xml ∧
       environ !! "QTEST_API_TOKEN" = Some api_token ∧
       _get_option_of_highest_precedence config "qtest-project-id" = Ret qid ∧
       ZigZagLib.junit_input_file zz = logfile xml ∧
       ZigZagLib.qtest_api_token zz = _validate_qtest_token api_token ∧
       ZigZagLib.qtest_project_id zz = qid ∧
       ZigZagLib.extra zz = PNone ∧
       (calls = [ZigZagLib.Constructed zz] ∨
        calls = [ZigZagLib.Constructed zz; ZigZagLib.Uploaded zz])).
Proof.
  destruct (sessionfinish_cases lib environ config)
    as [Hidle | (qid & _ & Hqid & Hrun)].
  - exists []. rewrite (Hidle w). split; [done | by left].
  - exists (upload_trace lib environ config qid).1.
    rewrite (Hrun w). split; [done|].
    destruct (upload_trace_calls lib environ config qid)
      as [Hnone | (xml & api_token & Hxml & Henv & Hcalls)]; [by left|].
    right. exists xml, api_token, qid, (uploader (logfile xml) api_token qid).
    by repeat (split; [done|]).
Qed.

(** X9.  The hook does not stop at a credential the validation rejects:
    with upload enabled, a report path and a credential that validates to
    the empty string, the uploader is still constructed, with the empty
    string as its token, and when the constructor returns the upload is
    still called. *)
Theorem sessionfinish_rejected_token_still_uploads (lib : ZigZagLib.t)
    (environ : gmap string string) (config : Config) (w : World)
    (zz_option qid : pyval) (xml : LogXML) (api_token : string) :
  hasplugin config "junitxml" = true →
  _get_option_of_highest_precedence config "zigzag" = Ret zz_option →
  _get_option_of_highest_precedence config "qtest-project-id" = Ret qid →
  truthy zz_option = true → truthy qid = true →
  _xml config = Some xml →
  environ !! "QTEST_API_TOKEN" = Some api_token →
  _validate_qtest_token api_token = EmptyString →
  ∃ zz rest,
    zigzag_calls (pytest_sessionfinish lib environ config w).1
      = zigzag_calls w ++ ZigZagLib.Constructed zz :: rest ∧
    ZigZagLib.qtest_api_token zz = EmptyString ∧
    ZigZagLib.junit_input_file zz = logfile xml ∧
    ZigZagLib.qtest_project_id zz = qid ∧
    (ZigZagLib.init lib zz = Ret tt → rest = [ZigZagLib.Uploaded zz]).
Proof.
  intros Hplugin Hzz Hqid Hzzt Hqidt Hxml Henv Htoken.
  rewrite (sessionfinish_closed lib environ config w _ _
             Hplugin Hzz Hqid Hzzt Hqidt).
  unfold upload_trace, xml_logfile, environ_getitem. rewrite Hxml, Henv.
  cbn -[uploader].
  exists (uploader (logfile xml) api_token qid).
  destruct (ZigZagLib.init lib (uploader (logfile xml) api_token qid))
    as [[]|e]; eexists; (split; [reflexivity|]); by repeat split.
Qed.

Lemma sessionfinish_rejected_token_still_uploads_witness :
  ∃ zz rest,
    zigzag_calls (pytest_sessionfinish Samples.returns_99
                    FinishSamples.bad_token_environ Samples.both_set
                    Samples.stale_world).1
      = zigzag_calls Samples.stale_world ++ ZigZagLib.Constructed zz :: rest ∧
    ZigZagLib.qtest_api_token zz = EmptyString ∧
    ZigZagLib.junit_input_file zz = "out.xml" ∧
    ZigZagLib.qtest_project_id zz = PStr "42" ∧
    (ZigZagLib.init Samples.returns_99 zz = Ret tt →
     rest = [ZigZagLib.Uploaded zz]).
Proof.
  apply (sessionfinish_rejected_token_still_uploads Samples.returns_99
           FinishSamples.bad_token_environ Samples.both_set
           Samples.stale_world (PBool true) (PStr "42")
           {| logfile := "out.xml" |} "abc-123"); reflexivity.
Defined.

(** X10.  With upload enabled, a missing report object and a missing
    credential variable both end the attempt before the library is called:
    without [config._xml] the buffer gets the failure notice and the text
    of the [AttributeError], whatever the environment holds; with it but
    without [QTEST_API_TOKEN] in the environment, the failure notice and
    the quoted name of the variable.  The hook returns normally in both
    cases. *)
Theorem sessionfinish_missing_inputs (lib : ZigZagLib.t)
    (environ : gmap string string) (config : Config) (w : World)
    (zz_option qid : pyval) :
  hasplugin config "junitxml" = true →
  _get_option_of_highest_precedence config "zigzag" = Ret zz_option →
  _get_option_of_highest_precedence config "qtest-project-id" = Ret qid →
  truthy zz_option = true → truthy qid = true →
  (_xml config = None →
   pytest_sessionfinish lib environ config w =
   (after_upload w []
      (failure_messages
         (PyExc (Builtin AttributeError)
            "'NoneType' object has no attribute 'logfile'")),
    Ret tt)) ∧
  (∀ xml, _xml config = Some xml →
          environ !! "QTEST_API_TOKEN" = None →
          pytest_sessionfinish lib environ config w =
          (after_upload w []
             (failure_messages (PyExc (Builtin KeyError) "'QTEST_API_TOKEN'")),
           Ret tt)).
Proof.
  intros Hplugin Hzz Hqid Hzzt Hqidt.
  rewrite (sessionfinish_closed lib environ config w _ _
             Hplugin Hzz Hqid Hzzt Hqidt).
  unfold upload_trace, xml_logfile, environ_getitem. split.
  - by intros ->.
  - by intros xml -> ->.
Qed.

Lemma sessionfinish_missing_inputs_witness :
  SessionMessages.iter
    (SESSION_MESSAGES
       (pytest_sessionfinish Samples.returns_99 Samples.token_environ
          FinishSamples.no_report Samples.stale_world).1)
  = [ "The ZigZag upload was not successful";
      "Original error message:" +:+ nl +:+ nl
        +:+ "'NoneType' object has no attribute 'logfile'" ] ∧
  SessionMessages.iter
    (SESSION_MESSAGES
       (pytest_sessionfinish Samples.returns_99 ∅
          Samples.both_set Samples.stale_world).1)
  = [ "The ZigZag upload was not successful";
      "Original error message:" +:+ nl +:+ nl +:+ "'QTEST_API_TOKEN'" ].
Proof.
  split.
  - rewrite (proj1 (sessionfinish_missing_inputs Samples.returns_99
                      Samples.token_environ FinishSamples.no_report
                      Samples.stale_world (PBool true) (PStr "42")
                      eq_refl eq_refl eq_refl eq_refl eq_refl) eq_refl).
    reflexivity.
  - rewrite (proj2 (sessionfinish_missing_inputs Samples.returns_99 ∅
                      Samples.both_set Samples.stale_world (PBool true)
                      (PStr "42") eq_refl eq_refl eq_refl eq_refl eq_refl)
               {| logfile := "out.xml" |} eq_refl (lookup_empty _)).
    reflexivity.
Defined.

(** ** Configure and terminal summary *)

(** X11.  The configure hook always returns normally and touches nothing
    but the warnings: it gives the warning 101 with the mismatch message
    when exactly one of the two options resolves to a set value, and no
    warning at all when both or neither do. *)
Theorem configure_warns_iff_mismatch (config : Config) (w : World) :
  ∃ zz qtpid,
    _get_option_of_highest_precedence config "zigzag" = Ret zz ∧
    _get_option_of_highest_precedence config "qtest-project-id" = Ret qtpid ∧
    (pytest_configure config w).2 = Ret tt ∧
    warnings (pytest_configure config w).1
      = warnings w ++ (if xorb (truthy zz) (truthy qtpid)
                       then [(101%Z, ZZ_WARN_MESSAGE)] else []) ∧
    SESSION_MESSAGES (pytest_configure config w).1 = SESSION_MESSAGES w ∧
    zigzag_calls (pytest_configure config w).1 = zigzag_calls w ∧
    terminal (pytest_configure config w).1 = terminal w.
Proof.
  pose proof (resolver_unfold config "zigzag") as Hzz.
  pose proof (resolver_unfold config "qtest-project-id") as Hqid.
  eexists _, _. split; [exact Hzz|]. split; [exact Hqid|].
  unfold pytest_configure, mbind, hook_bind, lift. rewrite Hzz, Hqid.
  unfold py_any, py_all. cbn.
  destruct (truthy (py_or _ _)), (truthy (py_or _ _)); cbn;
    by rewrite ?app_nil_r.
Qed.

(** X12.  The terminal summary reads the buffer without draining it: run
    twice in a row it writes the buffered messages twice, in order, and the
    buffer still holds them. *)
Theorem terminal_summary_keeps_buffer (w : World) :
  ∃ w1 w2,
    pytest_terminal_summary w = (w1, Ret tt) ∧
    pytest_terminal_summary w1 = (w2, Ret tt) ∧
    terminal w2
      = terminal w ++ SessionMessages.iter (SESSION_MESSAGES w)
                   ++ SessionMessages.iter (SESSION_MESSAGES w) ∧
    SESSION_MESSAGES w2 = SESSION_MESSAGES w ∧
    zigzag_calls w2 = zigzag_calls w ∧ warnings w2 = warnings w.
Proof.
  destruct (terminal_summary_writes w) as (w1 & Hrun1 & Ht1 & Hm1 & Hc1 & Hw1).
  destruct (terminal_summary_writes w1) as (w2 & Hrun2 & Ht2 & Hm2 & Hc2 & Hw2).
  exists w1, w2. split; [done|]. split; [done|].
  rewrite Ht2, Ht1, Hm1, Hm2, Hm1, Hc2, Hc1, Hw2, Hw1.
  by rewrite <- app_assoc.
Qed.

(** ** Setup, teardown and report together *)

Section EndTimeMore.

Lemma end_time_position_snoc (props : list (string * pyval))
    (k : string) (v : pyval) :
  end_time_position (props ++ [(k, v)])
  = if String.eqb k "end_time" then Some (length props)
    else end_time_position props.
Proof.
  unfold end_time_position. by rewrite enumerate_from_snoc, foldl_snoc.
Qed.

(** The search finds the tuple after which no ['end_time'] follows. *)
Lemma end_time_position_last (pre post : list (string * pyval)) (v : pyval) :
  Forall (λ tup, tup.1 ≠ "end_time") post →
  end_time_position (pre ++ ("end_time", v) :: post) = Some (length pre).
Proof.
  induction post as [|[k x] post IH] using rev_ind; intros Hpost.
  - by rewrite end_time_position_snoc.
  - destruct (proj1 (Forall_app _ _ _) Hpost) as [Hpost' Hk].
    apply (proj1 (Forall_singleton _ _)) in Hk. cbn in Hk.
    rewrite app_comm_cons, app_assoc, end_time_position_snoc.
    apply String.eqb_neq in Hk. rewrite Hk. by apply IH.
Qed.

Lemma end_time_position_none (props : list (string * pyval)) :
  Forall (λ tup, tup.1 ≠ "end_time") props → end_time_position props = None.
Proof.
  induction props as [|[k x] props IH] using rev_ind; intros Hprops; [done|].
  destruct (proj1 (Forall_app _ _ _) Hprops) as [Hprops' Hk].
  apply (proj1 (Forall_singleton _ _)) in Hk. cbn in Hk.
  rewrite end_time_position_snoc. apply String.eqb_neq in Hk. rewrite Hk.
  by apply IH.
Qed.

Lemma insert_middle (pre post : list (string * pyval)) (x y : string * pyval) :
  <[length pre := y]> (pre ++ x :: post) = pre ++ y :: post.
Proof.
  replace (length pre) with (length pre + 0) by lia.
  by rewrite insert_app_r.
Qed.

(** Teardown on the property list, by the two shapes the list can have. *)
Lemma teardown_without_end_time (now : string) (item : Item) :
  Forall (λ tup, tup.1 ≠ "end_time") (user_properties item) →
  pytest_runtest_teardown now item
  = with_user_properties (user_properties item ++ [("end_time", PStr now)])
      item.
Proof.
  intros H. unfold pytest_runtest_teardown.
  by rewrite (end_time_position_none _ H).
Qed.

Lemma teardown_with_end_time (now : string) (item : Item)
    (pre post : list (string * pyval)) (v : pyval) :
  user_properties item = pre ++ ("end_time", v) :: post →
  Forall (λ tup, tup.1 ≠ "end_time") post →
  pytest_runtest_teardown now item
  = with_user_properties (pre ++ ("end_time", PStr now) :: post) item.
Proof.
  intros Hprops Hpost. unfold pytest_runtest_teardown.
  rewrite Hprops, (end_time_position_last _ _ _ Hpost).
  unfold user_properties_setitem, with_user_properties.
  by rewrite Hprops, insert_middle.
Qed.

Lemma count_key_app (key : string) (l1 l2 : list (string * pyval)) :
  count_key key (l1 ++ l2) = count_key key l1 + count_key key l2.
Proof. unfold count_key. by rewrite List.filter_app, length_app. Qed.

Lemma count_key_cons (key k : string) (v : pyval)
    (l : list (string * pyval)) :
  count_key key ((k, v) :: l)
  = (if String.eqb k key then 1 else 0) + count_key key l.
Proof. unfold count_key. cbn. by destruct (String.eqb k key). Qed.

Lemma count_key_absent (key : string) (l : list (string * pyval)) :
  Forall (λ tup, tup.1 ≠ key) l → count_key key l = 0.
Proof.
  unfold count_key. induction 1 as [|[k v] l Hk _ IH]; [done|].
  cbn in *. apply String.eqb_neq in Hk. by rewrite Hk.
Qed.

End EndTimeMore.

(** X13.  Setup followed by teardown leaves, after the properties the item
    had, exactly the start time of the setup and the end time of the
    teardown: the provisional end time written at setup is the tuple the
    teardown overwrites, also when the item already carried ['end_time']
    tuples, and also when the setup skipped the test. *)
Theorem setup_then_teardown (now_setup now_teardown : string) (item : Item) :
  pytest_runtest_teardown now_teardown
    (pytest_runtest_setup now_setup item).1
  = with_user_properties
      (user_properties item ++ [ ("start_time", PStr now_setup);
                                 ("end_time", PStr now_teardown) ])
      item.
Proof.
  rewrite (teardown_with_end_time now_teardown _
             (user_properties item ++ [("start_time", PStr now_setup)])
             [] (PStr now_setup)).
  - unfold with_user_properties. cbn. by rewrite <- app_assoc.
  - cbn. by rewrite <- app_assoc.
  - constructor.
Qed.

(** X14.  A later teardown absorbs an earlier one: tearing down at one time
    and again at another leaves the item exactly as a single teardown at
    the later time does, so repeated teardowns never pile up ['end_time']
    tuples. *)
Theorem teardown_absorbs (earlier later : string) (item : Item) :
  pytest_runtest_teardown later (pytest_runtest_teardown earlier item)
  = pytest_runtest_teardown later item.
Proof.
  pose proof (end_time_position_spec (user_properties item)) as Hpos.
  destruct (end_time_position (user_properties item)) as [n|] eqn:Hn.
  - destruct Hpos as (pre & v & post & Hprops & _ & Hpost).
    rewrite (teardown_with_end_time earlier item pre post v Hprops Hpost).
    rewrite (teardown_with_end_time later item pre post v Hprops Hpost).
    by rewrite (teardown_with_end_time later
                  (with_user_properties
                     (pre ++ ("end_time", PStr earlier) :: post) item)
                  pre post (PStr earlier) eq_refl Hpost).
  - rewrite (teardown_without_end_time earlier item Hpos).
    rewrite (teardown_without_end_time later item Hpos).
    by rewrite (teardown_with_end_time later
                  (with_user_properties
                     (user_properties item ++ [("end_time", PStr earlier)])
                     item)
                  (user_properties item) [] (PStr earlier) eq_refl
                  (Forall_nil_2 _)).
Qed.

(** X15.  Teardown keeps the number of tuples of every key, except that an
    item without an ['end_time'] tuple gets one: afterwards the number of
    ['end_time'] tuples is the number before, or one if there was none. *)
Theorem teardown_counts (now : string) (item : Item) :
  count_key "end_time" (user_properties (pytest_runtest_teardown now item))
    = Nat.max 1 (count_key "end_time" (user_properties item)) ∧
  ∀ key, key ≠ "end_time" →
    count_key key (user_properties (pytest_runtest_teardown now item))
      = count_key key (user_properties item).
Proof.
  pose proof (end_time_position_spec (user_properties item)) as Hpos.
  destruct (end_time_position (user_properties item)) as [n|] eqn:Hn.
  - destruct Hpos as (pre & v & post & Hprops & _ & Hpost).
    rewrite (teardown_with_end_time now item pre post v Hprops Hpost), Hprops.
    cbn [with_user_properties user_properties].
    rewrite !count_key_app, !count_key_cons. split.
    + cbn. lia.
    + intros key Hkey. rewrite !count_key_app, !count_key_cons.
      apply not_eq_sym, String.eqb_neq in Hkey. by rewrite Hkey.
  - rewrite (teardown_without_end_time now item Hpos).
    cbn [with_user_properties user_properties].
    split.
    + rewrite count_key_app, count_key_cons, (count_key_absent _ _ Hpos).
      done.
    + intros key Hkey. rewrite count_key_app, count_key_cons.
      apply not_eq_sym, String.eqb_neq in Hkey. rewrite Hkey. cbn. lia.
Qed.

(** X16.  A failing step makes the next step of the group skip: once the
    report hook has seen a stepped item end a phase with an exception, the
    setup hook of any stepped item under the same parent whose name
    contains neither ["setup"] nor ["teardown"] skips, and the skip message
    names the item that failed. *)
Theorem failed_step_skips_next (now : string) (failed next : Item) (e : exn) :
  "test_case_with_steps" ∈ keywords failed →
  "test_case_with_steps" ∈ keywords next →
  Str.contains "setup" (name next) = false →
  Str.contains "teardown" (name next) = false →
  (pytest_runtest_setup now
     (with_parent
        (pytest_runtest_makereport failed {| excinfo := Some e |}) next)).2
  = Raise (PytestSkipped ("because previous test failed: " +:+ name failed)).
Proof.
  intros Hfailed Hnext Hsetup Hteardown.
  unfold pytest_runtest_setup, pytest_runtest_makereport, pytest_skip. cbn.
  rewrite Hsetup, Hteardown.
  by rewrite !bool_decide_eq_true_2.
Qed.

Lemma failed_step_skips_next_witness :
  (pytest_runtest_setup "2019-01-01T10:00:09Z"
     (with_parent
        (pytest_runtest_makereport StepSamples.first
           {| excinfo := Some StepSamples.assertion_error |})
        StepSamples.second)).2
  = Raise (PytestSkipped "because previous test failed: test_create_server").
Proof.
  apply (failed_step_skips_next "2019-01-01T10:00:09Z" StepSamples.first
           StepSamples.second StepSamples.assertion_error);
    [by vm_compute | by vm_compute | reflexivity | reflexivity].
Defined.

(** X17.  A step that the setup hook skips is itself recorded as the
    previous failure, because the report hook does not tell a skip from a
    failure: when the parent records a failed step, the setup of the next
    stepped item raises the skip, and after the report hook has been given
    that exception, the step after it is skipped with a message that names
    the skipped step, not the step that failed first. *)
Theorem skipped_step_becomes_previous (now now' : string) (p : Parent)
    (previous : string) (skipped next : Item) :
  _previousfailed p = Some previous →
  "test_case_with_steps" ∈ keywords skipped →
  Str.contains "setup" (name skipped) = false →
  Str.contains "teardown" (name skipped) = false →
  "test_case_with_steps" ∈ keywords next →
  Str.contains "setup" (name next) = false →
  Str.contains "teardown" (name next) = false →
  (pytest_runtest_setup now (with_parent p skipped)).2
    = Raise (PytestSkipped ("because previous test failed: " +:+ previous)) ∧
  (pytest_runtest_setup now'
     (with_parent
        (pytest_runtest_makereport
           (pytest_runtest_setup now (with_parent p skipped)).1
           {| excinfo :=
                Some (PytestSkipped
                        ("because previous test failed: " +:+ previous)) |})
        next)).2
  = Raise (PytestSkipped ("because previous test failed: " +:+ name skipped)).
Proof.
  intros Hp Hskipped Hs1 Ht1 Hnext Hs2 Ht2.
  unfold pytest_runtest_setup, pytest_runtest_makereport, pytest_skip. cbn.
  rewrite Hp, Hs1, Ht1, Hs2, Ht2.
  by rewrite !bool_decide_eq_true_2.
Qed.

Lemma skipped_step_becomes_previous_witness :
  (pytest_runtest_setup "2019-01-01T10:00:09Z"
     (with_parent {| _previousfailed := Some "test_create_server" |}
        StepSamples.second)).2
    = Raise (PytestSkipped
               "because previous test failed: test_create_server") ∧
  (pytest_runtest_setup "2019-01-01T10:00:10Z"
     (with_parent
        (pytest_runtest_makereport
           (pytest_runtest_setup "2019-01-01T10:00:09Z"
              (with_parent {| _previousfailed := Some "test_create_server" |}
                 StepSamples.second)).1
           {| excinfo :=
                Some (PytestSkipped
                        "because previous test failed: test_create_server") |})
        StepSamples.third)).2
  = Raise (PytestSkipped "because previous test failed: test_resize_server").
Proof.
  apply (skipped_step_becomes_previous "2019-01-01T10:00:09Z"
           "2019-01-01T10:00:10Z"
           {| _previousfailed := Some "test_create_server" |}
           "test_create_server" StepSamples.second StepSamples.third);
    [reflexivity | by vm_compute | reflexivity | reflexivity
     | by vm_compute | reflexivity | reflexivity].
Defined.

(** X18.  The report hook never clears a recorded failure: a parent that
    records a failed step still records one afterwards, whatever the item
    and however its phase ended.  It changes the parent only for an item
    with the steps mark whose phase raised, and then records that item. *)
Theorem makereport_keeps_failure (item : Item) (call : CallInfo) :
  (is_Some (_previousfailed (parent item)) →
   is_Some (_previousfailed (pytest_runtest_makereport item call))) ∧
  ("test_case_with_steps" ∉ keywords item ∨ excinfo call = None →
   pytest_runtest_makereport item call = parent item) ∧
  (pytest_runtest_makereport item call ≠ parent item →
   "test_case_with_steps" ∈ keywords item ∧
   is_Some (excinfo call) ∧
   _previousfailed (pytest_runtest_makereport item call) = Some (name item)).
Proof.
  unfold pytest_runtest_makereport.
  destruct (bool_decide_reflect ("test_case_with_steps" ∈ keywords item))
    as [Hin|Hnotin].
  - destruct (excinfo call) as [e|].
    + split; [by eexists|]. split; [by intros [|]|]. by eauto.
    + by repeat split.
  - by repeat split.
Qed.

(** ** Capturing marks *)

Section CaptureMarks.

Lemma with_user_properties_self (item : Item) :
  with_user_properties (user_properties item) item = item.
Proof. by destruct item. Qed.

(** The innermost loop: one tuple per argument of the marker. *)
Lemma capture_args (k : string) (args : list pyval) (item : Item) :
  foldl (λ item arg, user_properties_append (k, arg) item) item args
  = with_user_properties
      (user_properties item ++ map (λ arg, (k, arg)) args) item.
Proof.
  revert item. induction args as [|arg args IH]; intros item; cbn.
  - by rewrite app_nil_r, with_user_properties_self.
  - rewrite IH. unfold with_user_properties, user_properties_append. cbn.
    by rewrite <- app_assoc.
Qed.

(** The loop over the markers of one name. *)
Lemma capture_markers (marks : list Mark) (item : Item) :
  foldl (λ item marker,
           foldl (λ item arg,
                    user_properties_append (marker_name marker, arg) item)
                 item (marker_args marker))
        item marks
  = with_user_properties (user_properties item ++ mark_tuples marks) item.
Proof.
  revert item. induction marks as [|m marks IH]; intros item; cbn.
  - by rewrite app_nil_r, with_user_properties_self.
  - rewrite IH, capture_args. unfold with_user_properties. cbn.
    by rewrite <- app_assoc.
Qed.

(** The loop over the requested names. *)
Lemma capture_names (c : Collected) (mark_names : list string) (item : Item) :
  foldl (λ item mark_name,
           foldl (λ item marker,
                    foldl (λ item arg,
                             user_properties_append (marker_name marker, arg)
                               item)
                          item (marker_args marker))
                 item (iter_markers c mark_name))
        item mark_names
  = with_user_properties
      (user_properties item
         ++ flat_map (λ mark_name, mark_tuples (iter_markers c mark_name))
              mark_names)
      item.
Proof.
  revert item. induction mark_names as [|n mark_names IH]; intros item; cbn.
  - by rewrite app_nil_r, with_user_properties_self.
  - rewrite IH, capture_markers. unfold with_user_properties. cbn.
    by rewrite <- app_assoc.
Qed.

(** The body of the outer loop in closed form. *)
Lemma capture_marks_item_closed (mark_names : list string) (c : Collected) :
  _capture_marks_item mark_names c
  = {| node :=
         with_user_properties
           (user_properties (node c)
              ++ ("test_step", test_step_flag c)
                   :: flat_map
                        (λ mark_name, mark_tuples (iter_markers c mark_name))
                        mark_names)
           (node c);
       markers := markers c |}.
Proof.
  unfold _capture_marks_item. rewrite capture_names.
  unfold with_user_properties, user_properties_append, test_step_flag. cbn.
  by rewrite <- app_assoc.
Qed.

(** The tuples recorded for the requested names are those of the marks the
    item carries under one of these names. *)
Lemma recorded_tuple_iff (c : Collected) (mark_names : list string)
    (k : string) (v : pyval) :
  (k, v) ∈ flat_map (λ mark_name, mark_tuples (iter_markers c mark_name))
             mark_names ↔
  k ∈ mark_names ∧
  ∃ m, m ∈ markers c ∧ marker_name m = k ∧ v ∈ marker_args m.
Proof.
  rewrite list_elem_of_In, in_flat_map. split.
  - intros (n & Hn & Hin). unfold mark_tuples in Hin.
    apply in_flat_map in Hin as (m & Hm & Hin).
    apply in_map_iff in Hin as (arg & [= <- <-] & Harg).
    apply filter_In in Hm as [Hm Hname]. apply String.eqb_eq in Hname.
    split; [by rewrite Hname, list_elem_of_In|].
    exists m. by rewrite !list_elem_of_In.
  - intros (Hk & m & Hm & Hname & Hv). exists k.
    split; [by apply list_elem_of_In|].
    unfold mark_tuples. apply in_flat_map. exists m. split.
    + apply filter_In. split; [by apply list_elem_of_In|].
      by apply String.eqb_eq.
    + apply in_map_iff. exists v. split; [by rewrite Hname|].
      by apply list_elem_of_In.
Qed.

Lemma drop_after {A} (l r : list A) (x : A) :
  drop (S (length l)) (l ++ x :: r) = r.
Proof. induction l as [|y l IH]; [done | exact IH]. Qed.

End CaptureMarks.

(** X19.  Capturing marks keeps the collection and everything the items
    had: the same number of items in the same order, each with its name,
    keywords, parent and marks, and with its earlier properties in front of
    the new ones.  The first new tuple is ['test_step'], which is ['true']
    exactly when the item carries a mark named [test_case_with_steps] and
    ['false'] otherwise. *)
Theorem capture_marks_frame (items : list Collected) (mark_names : list string) :
  length (_capture_marks items mark_names) = length items ∧
  ∀ i c, items !! i = Some c →
    ∃ c' added,
      _capture_marks items mark_names !! i = Some c' ∧
      markers c' = markers c ∧
      name (node c') = name (node c) ∧
      keywords (node c') = keywords (node c) ∧
      parent (node c') = parent (node c) ∧
      user_properties (node c')
        = user_properties (node c) ++ ("test_step", test_step_flag c) :: added ∧
      (test_step_flag c = PStr "true" ↔
       ∃ m, m ∈ markers c ∧ marker_name m = "test_case_with_steps") ∧
      (test_step_flag c = PStr "true" ∨ test_step_flag c = PStr "false").
Proof.
  unfold _capture_marks. split; [by rewrite length_map|].
  intros i c Hi. eexists _, _. rewrite list_lookup_fmap, Hi. cbn.
  rewrite capture_marks_item_closed. cbn.
  split; [reflexivity|]. do 5 (split; [reflexivity|]).
  unfold test_step_flag, get_closest_marker, iter_markers.
  destruct (List.filter _ (markers c)) as [|m ms] eqn:Hf; cbn.
  - split; [|by right]. split; [done|].
    intros (m & Hm & Hname). exfalso.
    assert (In m (List.filter
                    (λ m, String.eqb (marker_name m) TEST_STEPS_MARK)
                    (markers c))) as Hin.
    { apply filter_In. split; [by apply list_elem_of_In|].
      by apply String.eqb_eq. }
    by rewrite Hf in Hin.
  - split; [|by left]. split; [|done]. intros _.
    assert (In m (List.filter
                    (λ m, String.eqb (marker_name m) TEST_STEPS_MARK)
                    (markers c))) as Hin by (rewrite Hf; by left).
    apply filter_In in Hin as [Hin Hname]. apply String.eqb_eq in Hname.
    exists m. split; [by apply list_elem_of_In | done].
Qed.

(** X20.  After the ['test_step'] tuple, capturing marks records exactly
    the arguments of the requested marks: a tuple [(k, v)] is among the
    tuples added after it if and only if [k] is one of the requested names
    and the item carries a mark of that name with [v] among its arguments.
    So a mark of another name is never recorded, and a requested mark
    without arguments leaves no tuple. *)
Theorem capture_marks_records_requested (items : list Collected)
    (mark_names : list string) (i : nat) (c c' : Collected)
    (k : string) (v : pyval) :
  items !! i = Some c →
  _capture_marks items mark_names !! i = Some c' →
  (k, v) ∈ drop (S (length (user_properties (node c))))
             (user_properties (node c')) ↔
  k ∈ mark_names ∧
  ∃ m, m ∈ markers c ∧ marker_name m = k ∧ v ∈ marker_args m.
Proof.
  intros Hi Hi'. unfold _capture_marks in Hi'.
  rewrite list_lookup_fmap, Hi in Hi'. cbn in Hi'. injection Hi' as <-.
  rewrite capture_marks_item_closed. cbn.
  rewrite <- recorded_tuple_iff. by rewrite drop_after.
Qed.

Lemma capture_marks_records_requested_witness :
  ("jira", PStr "ASC-2")
    ∈ drop (S (length (user_properties (node MarkSamples.step))))
        (user_properties
           (node (_capture_marks_item ["test_id"; "jira"] MarkSamples.step))).
Proof.
  apply (proj2 (capture_marks_records_requested [MarkSamples.step]
                  ["test_id"; "jira"] 0 MarkSamples.step
                  (_capture_marks_item ["test_id"; "jira"] MarkSamples.step)
                  "jira" (PStr "ASC-2") eq_refl eq_refl)).
  split.
  - apply list_elem_of_further, list_elem_of_here.
  - exists {| marker_name := "jira";
              marker_args := [PStr "ASC-1"; PStr "ASC-2"] |}.
    split; [apply list_elem_of_here|]. split; [reflexivity|].
    apply list_elem_of_further, list_elem_of_here.
Defined.

(** X21.  The collection hook gives every item, after the properties it
    had, the ['test_step'] tuple, then one ['test_id'] tuple per argument of
    its [test_id] marks, then one ['jira'] tuple per argument of its [jira]
    marks: test ids come before tickets however the marks were stacked, and
    within one name the closest mark comes first. *)
Theorem collection_records_ids_then_tickets (items : list Collected) :
  map (λ c, user_properties (node c)) (pytest_collection_modifyitems items)
  = map (λ c, user_properties (node c)
               ++ ("test_step", test_step_flag c)
                    :: mark_tuples (iter_markers c "test_id")
                    ++ mark_tuples (iter_markers c "jira"))
      items.
Proof.
  unfold pytest_collection_modifyitems, _capture_marks.
  rewrite map_map. apply map_ext. intros c.
  rewrite capture_marks_item_closed. cbn. by rewrite app_nil_r.
Qed.

(** ** Capturing the CI environment *)

Section CiCapture.

(** The chosen config file in closed form. *)
Lemma highest_precedence_config_closed (config : Config) :
  ∃ config_file pytest_config,
    _get_option_of_highest_precedence config "config_file" = Ret config_file ∧
    _get_option_of_highest_precedence config "pytest-config"
      = Ret pytest_config ∧
    highest_precedence_config config
      = Ret (if truthy pytest_config then pytest_config
             else if truthy config_file then config_file
             else PStr DEFAULT_CONFIG_FILE).
Proof.
  pose proof (resolver_unfold config "config_file") as Hcf.
  pose proof (resolver_unfold config "pytest-config") as Hpc.
  eexists _, _. split; [exact Hcf|]. split; [exact Hpc|].
  unfold highest_precedence_config. rewrite Hcf, Hpc. cbn.
  destruct (truthy (py_or (default PNone (cli_value config "config_file")) _))
    eqn:Hcft; cbn; rewrite ?Hcf; cbn;
    destruct (truthy (py_or (default PNone (cli_value config "pytest-config")) _))
      eqn:Hpct; cbn; rewrite ?Hpc; cbn; by rewrite ?Hpct, ?Hcft.
Qed.

(** In a dictionary, a key finds the value it is paired with. *)
Lemma get_of_member (vars : list (string * Json.value)) (k : string)
    (v : Json.value) :
  NoDup (map fst vars) → (k, v) ∈ vars → Json.get k vars = Some v.
Proof.
  induction vars as [|[k' v'] vars IH]; intros Hnodup Hin.
  - by apply elem_of_nil in Hin.
  - apply NoDup_cons in Hnodup as [Hfresh Hnodup]. cbn.
    apply elem_of_cons in Hin as [[= -> ->] | Hin].
    + by rewrite String.eqb_refl.
    + destruct (String.eqb k' k) eqn:Hk; [|by apply IH].
      apply String.eqb_eq in Hk as ->. exfalso. apply Hfresh.
      apply list_elem_of_fmap. by exists (k, v).
Qed.

(** The loop over the variables of a well-formed document. *)
Lemma record_environment_members (environ : gmap string string)
    (members vars rest : list (string * Json.value))
    (recorded : list (Json.value * Json.value)) :
  Json.get "environment_variables" members = Some (Json.JObj vars) →
  (∀ kv, kv ∈ rest → Json.get kv.1 vars = Some kv.2) →
  record_environment environ (Json.JObj members)
    (map (λ kv, Json.JStr kv.1) rest) recorded
  = (recorded ++ map (global_property environ) rest, Ret tt).
Proof.
  intros Hvars. revert recorded.
  induction rest as [|[k v] rest IH]; intros recorded Hrest; cbn.
  - by rewrite app_nil_r.
  - rewrite Hvars. cbn.
    pose proof (Hrest (k, v) (list_elem_of_here _ _)) as Hk. cbn in Hk.
    rewrite Hk. cbn.
    unfold global_property at 1. cbn.
    destruct (environ !! k) as [s|]; cbn;
      (rewrite IH; [by rewrite <- app_assoc |
                    intros kv Hkv; apply Hrest; by apply list_elem_of_further]).
Qed.

End CiCapture.

(** X22.  The config file is chosen by option name first and by source
    second: a [pytest-config] value, from the command line or the ini file,
    wins over any [config_file] value, a [config_file] value is used when
    [pytest-config] is not set, and the bundled default file when neither
    is; the choice never fails and is always a set value. *)
Theorem config_file_precedence (config : Config) :
  ∃ config_file pytest_config chosen,
    _get_option_of_highest_precedence config "config_file" = Ret config_file ∧
    _get_option_of_highest_precedence config "pytest-config"
      = Ret pytest_config ∧
    highest_precedence_config config = Ret chosen ∧
    truthy chosen = true ∧
    (truthy pytest_config = true → chosen = pytest_config) ∧
    (truthy pytest_config = false → truthy config_file = true →
     chosen = config_file) ∧
    (truthy pytest_config = false → truthy config_file = false →
     chosen = PStr DEFAULT_CONFIG_FILE).
Proof.
  destruct (highest_precedence_config_closed config)
    as (cf & pc & Hcf & Hpc & Hchosen).
  exists cf, pc. eexists. split; [done|]. split; [done|].
  split; [exact Hchosen|].
  destruct (truthy pc) eqn:Hpct, (truthy cf) eqn:Hcft; by repeat split.
Qed.

(** X23.  The run-loop hook does what [_capture_ci_environment] does, its
    own guards being the same as the ones inside.  Without the junitxml
    plugin, or without a report object at [config._xml], neither reads any
    file nor records any property and both return normally, whatever the
    config file options point to. *)
Theorem runtestloop_is_capture (env : CiEnv) (config : Config) :
  pytest_runtestloop env config = _capture_ci_environment env config ∧
  (hasplugin config "junitxml" = false ∨ _xml config = None →
   ∀ other : CiEnv,
     _capture_ci_environment other config = ([], Ret tt) ∧
     pytest_runtestloop other config = ([], Ret tt)).
Proof.
  unfold pytest_runtestloop, _capture_ci_environment. split.
  - destruct (hasplugin config "junitxml"); [|done].
    by destruct (_xml config).
  - intros [-> | ->] other; [done|].
    by destruct (hasplugin config "junitxml").
Qed.

(** X24.  With the report add-on active, a config file that cannot be
    loaded stops the hook before any property is recorded: whatever
    [_load_config_file] raises for the chosen path, the exit with code 1
    included, comes out of [_capture_ci_environment] and of the run-loop
    hook unchanged. *)
Theorem capture_propagates_load_failure (env : CiEnv) (config : Config)
    (xml : LogXML) (path : string) (e : exn) :
  hasplugin config "junitxml" = true →
  _xml config = Some xml →
  highest_precedence_config config = Ret (PStr path) →
  _load_config_file (loader_env env) path = Raise e →
  _capture_ci_environment env config = ([], Raise e) ∧
  pytest_runtestloop env config = ([], Raise e).
Proof.
  intros Hplugin Hxml Hpath Hload.
  assert (_capture_ci_environment env config = ([], Raise e)) as Hcapture.
  { unfold _capture_ci_environment. rewrite Hplugin, Hxml, Hpath. cbn.
    by rewrite Hload. }
  split; [done|].
  unfold pytest_runtestloop. by rewrite Hplugin, Hxml.
Qed.

Lemma capture_propagates_load_failure_witness :
  _capture_ci_environment CiSamples.env CiSamples.missing_file
    = ([], Raise (PytestExit "Failed to load 'missing.json' config file!" 1)) ∧
  pytest_runtestloop CiSamples.env CiSamples.missing_file
    = ([], Raise (PytestExit "Failed to load 'missing.json' config file!" 1)).
Proof.
  apply (capture_propagates_load_failure CiSamples.env CiSamples.missing_file
           {| logfile := "out.xml" |} "missing.json"); reflexivity.
Defined.

(** X25.  With the report add-on active and a config file that loads to a
    dictionary whose [environment_variables] entry is a dictionary, the
    hook records one global property per variable of the file, in the order
    of the file, and returns normally; the value recorded is the value of
    the variable in the process environment when it is set there, and the
    default given in the file otherwise. *)
Theorem capture_records_environment (env : CiEnv) (config : Config)
    (xml : LogXML) (path : string)
    (members vars : list (string * Json.value)) :
  hasplugin config "junitxml" = true →
  _xml config = Some xml →
  highest_precedence_config config = Ret (PStr path) →
  _load_config_file (loader_env env) path = Ret (Json.JObj members) →
  Json.get "environment_variables" members = Some (Json.JObj vars) →
  NoDup (map fst vars) →
  _capture_ci_environment env config
    = (map (global_property (os_environ env)) vars, Ret tt).
Proof.
  intros Hplugin Hxml Hpath Hload Hvars Hnodup.
  unfold _capture_ci_environment. rewrite Hplugin, Hxml, Hpath. cbn.
  rewrite Hload. cbn. rewrite Hvars. cbn.
  rewrite (record_environment_members (os_environ env) members vars vars []
             Hvars); [done|].
  intros [k v] Hkv. by apply get_of_member.
Qed.

Lemma capture_records_environment_witness :
  _capture_ci_environment CiSamples.env Samples.both_set
  = ([ (Json.JStr "BUILD_URL", Json.JStr "unknown");
       (Json.JStr "BUILD_NUMBER", Json.JStr "117") ], Ret tt).
Proof.
  apply (capture_records_environment CiSamples.env Samples.both_set
           {| logfile := "out.xml" |} "conf.json"
           [("environment_variables",
             Json.JObj [("BUILD_URL", Json.JStr "unknown");
                        ("BUILD_NUMBER", Json.JStr "0")])]
           [("BUILD_URL", Json.JStr "unknown");
            ("BUILD_NUMBER", Json.JStr "0")]);
    try reflexivity.
  cbn. apply NoDup_cons. split.
  - intros Hin. apply list_elem_of_singleton in Hin. discriminate Hin.
  - apply NoDup_singleton.
Defined.

(** ** Registering the options *)

(** X26.  [pytest_addoption] keeps what was registered before and adds
    exactly four ini keys, [pytest-config], [config_file], [zigzag] and
    [qtest-project-id] in this order, and exactly four flags, each flag
    being ["--"] followed by the name of the ini key registered with it,
    which is the pairing the resolver relies on.  Every option name the
    hooks resolve is among them on both sides, and every default registered
    is a value that is not set, so that nothing is enabled unless the user
    says so. *)
Theorem addoption_registers_pairs (parser : Parser) :
  ∃ new_inis new_opts,
    inis (pytest_addoption parser) = inis parser ++ new_inis ∧
    opts (pytest_addoption parser) = opts parser ++ new_opts ∧
    map ini_name new_inis
      = ["pytest-config"; "config_file"; "zigzag"; "qtest-project-id"] ∧
    map opt_flag new_opts
      = ["--pytest-config"; "--config_file"; "--zigzag";
         "--qtest-project-id"] ∧
    length new_inis = 4 ∧ length new_opts = 4 ∧
    map opt_flag new_opts = map (λ s, "--" +:+ ini_name s) new_inis ∧
    (∀ option_name, option_name ∈ resolved_option_names →
       option_name ∈ map ini_name new_inis ∧
       "--" +:+ option_name ∈ map opt_flag new_opts) ∧
    Forall (λ s, truthy (ini_default s) = false) new_inis ∧
    Forall (λ o, truthy (opt_default o) = false) new_opts.
Proof.
  unfold pytest_addoption, addini, addoption. cbn.
  eexists _, _. rewrite <- !app_assoc. cbn.
  split; [reflexivity|]. split; [reflexivity|]. split; [reflexivity|].
  split; [reflexivity|]. split; [reflexivity|]. split; [reflexivity|].
  split; [reflexivity|]. split.
  - intros option_name Hin. unfold resolved_option_names in Hin.
    repeat (apply elem_of_cons in Hin as [-> | Hin];
            [split; cbn; set_solver|]).
    by apply elem_of_nil in Hin.
  - split; by repeat constructor.
Qed.

(** ** A failed upload, end to end *)

(** X27.  With upload enabled, an instance of [Exception] raised inside the
    upload step reaches the user through the terminal summary and nowhere
    else: the session-finish hook returns normally, and the terminal
    summary that follows writes, after what the terminal already shows, the
    failure notice and then the message with the text of the error. *)
Theorem failed_upload_reaches_terminal (lib : ZigZagLib.t)
    (environ : gmap string string) (config : Config) (w : World)
    (zz_option qtest_project_id : pyval) (e : exn) :
  hasplugin config "junitxml" = true →
  _get_option_of_highest_precedence config "zigzag" = Ret zz_option →
  _get_option_of_highest_precedence config "qtest-project-id"
    = Ret qtest_project_id →
  truthy zz_option = true → truthy qtest_project_id = true →
  raised_in_upload lib environ config qtest_project_id e →
  isinstance e Exception = true →
  ∃ w1 w2,
    pytest_sessionfinish lib environ config w = (w1, Ret tt) ∧
    pytest_terminal_summary w1 = (w2, Ret tt) ∧
    terminal w2 = terminal w ++ failure_messages e ∧
    warnings w2 = warnings w.
Proof.
  intros Hplugin Hzz Hqid Hzzt Hqidt Hraised Hexc.
  rewrite (sessionfinish_enabled _ _ _ _ _ _ Hplugin Hzz Hqid Hzzt Hqidt).
  destruct (upload_step_raises lib environ config (drained w)
              qtest_project_id e Hraised) as (w0 & Hstep & Hm & Hw & Ht).
  unfold try_. rewrite Hstep, Hexc.
  unfold upload_failed, mbind, hook_bind, messages_append. cbn.
  eexists. 
  edestruct terminal_summary_writes as (w2 & Hsum & Hterm & _ & _ & Hwarn).
  exists w2. split; [reflexivity|]. split; [exact Hsum|].
  rewrite Hterm, Hwarn. cbn. by rewrite Hm, Ht, Hw.
Qed.

Lemma failed_upload_reaches_terminal_witness :
  ∃ w1 w2,
    pytest_sessionfinish (Samples.raises Samples.boom) Samples.token_environ
      Samples.both_set Samples.stale_world = (w1, Ret tt) ∧
    pytest_terminal_summary w1 = (w2, Ret tt) ∧
    terminal w2
      = terminal Samples.stale_world ++ failure_messages Samples.boom ∧
    warnings w2 = warnings Samples.stale_world.
Proof.
  apply (failed_upload_reaches_terminal (Samples.raises Samples.boom)
           Samples.token_environ Samples.both_set Samples.stale_world
           (PBool true) (PStr "42") Samples.boom);
    try reflexivity.
  apply (raised_by_upload _ _ _ _ _ "out.xml" "abc123"); reflexivity.
Defined.
